(** * ConceptViz: the self-correcting generation/execution loop of [app.py]

    A shallow embedding of the Python script [src/app.py] and the
    properties of its retry loop, code generator, executor and
    explanation generator.

    Conventions of the embedding.
    - A Python [str] is the list of its Unicode code points ([pystr]);
      literals of the script are written as UTF-8 text and decoded by [lit].
    - A Python call either returns a value or raises an instance of
      [Exception] ([res]); the script's only handler is
      [except Exception], so [exn] stands for the instances of that class.
    - The script's module-level variables and the effects on the outside
      (the Gemini client, [exec], Streamlit) are threaded explicitly through
      a state ([state]) by a small state-and-exception monad ([Py]).
    - What is outside the repository (the model client, the Python
      interpreter behind [exec], the chart renderer) is an interface
      ([Host]) every theorem quantifies over. *)

From Stdlib Require Import String Ascii NArith ZArith List Lia DecimalString.
From stdpp Require Import base option list gmap.

Set Default Proof Using "Type".
Local Open Scope N_scope.
Local Open Scope list_scope.

(** ** Python strings *)

Module PyStr.

(** A code point. *)
Abbreviation char := N (only parsing).

(** A Python [str]: a sequence of code points. *)
Abbreviation pystr := (list N) (only parsing).

(** UTF-8 decoding of the bytes of a literal: [need] continuation bytes are
    still expected for the code point accumulated in [acc]. *)
Fixpoint utf8_decode (need : nat) (acc : N) (bs : list N) : pystr :=
  match bs with
  | [] => []
  | b :: bs' =>
      match need with
      | O =>
          if b <? 128 then b :: utf8_decode 0 0 bs'
          else if b <? 224 then utf8_decode 1 (b - 192) bs'
          else if b <? 240 then utf8_decode 2 (b - 224) bs'
          else utf8_decode 3 (b - 240) bs'
      | S k =>
          let acc' := acc * 64 + (b - 128) in
          match k with
          | O => acc' :: utf8_decode 0 0 bs'
          | S _ => utf8_decode k acc' bs'
          end
      end
  end.

(** The [str] denoted by a literal of the script. *)
Definition lit (s : string) : pystr :=
  utf8_decode 0 0 (map N_of_ascii (list_ascii_of_string s)).
Global Arguments lit s%_string.

(** [str(n)] for a non-negative [int]. *)
Definition str_of_nat (n : nat) : pystr :=
  lit (NilEmpty.string_of_uint (Nat.to_uint n)).

(** [s.startswith(p)]. *)
Fixpoint starts_with (p s : pystr) : bool :=
  match p, s with
  | [], _ => true
  | _ :: _, [] => false
  | a :: p', b :: s' => (a =? b) && starts_with p' s'
  end.

(** [p in s]: [p] occurs in [s] as a substring. *)
Fixpoint occurs (p s : pystr) : bool :=
  starts_with p s ||
  match s with
  | [] => false
  | _ :: s' => occurs p s'
  end.

(** [str.replace(old, new)] for a non-empty [old]: scan from the left; at an
    occurrence of [old] emit [new] and jump over the occurrence, otherwise
    copy one character.  [skip] counts the characters of the current
    occurrence that are still to be jumped over. *)
Fixpoint replace_from (old new : pystr) (skip : nat) (s : pystr) : pystr :=
  match s with
  | [] => []
  | c :: s' =>
      match skip with
      | S k => replace_from old new k s'
      | O =>
          if starts_with old s
          then new ++ replace_from old new (length old - 1) s'
          else c :: replace_from old new 0 s'
      end
  end.

(** [s.replace(old, new)].  With an empty [old] Python inserts [new] before
    every character and at the end. *)
Definition replace (old new s : pystr) : pystr :=
  match old with
  | [] => new ++ flat_map (fun c => c :: new) s
  | _ :: _ => replace_from old new 0 s
  end.

(** [c.isspace()]: the code points CPython's [str.strip()] removes. *)
Definition is_space (c : char) : bool :=
  ((9 <=? c) && (c <=? 13)) || ((28 <=? c) && (c <=? 32))
  || (c =? 133) || (c =? 160) || (c =? 5760)
  || ((8192 <=? c) && (c <=? 8202))
  || (c =? 8232) || (c =? 8233) || (c =? 8239) || (c =? 8287)
  || (c =? 12288).

(** [s.lstrip()]. *)
Fixpoint lstrip (s : pystr) : pystr :=
  match s with
  | [] => []
  | c :: s' => if is_space c then lstrip s' else s
  end.

(** [s.rstrip()]. *)
Definition rstrip (s : pystr) : pystr := reverse (lstrip (reverse s)).

(** [s.strip()]. *)
Definition strip (s : pystr) : pystr := rstrip (lstrip s).

(** Neither the first nor the last character is whitespace. *)
Definition trimmed (s : pystr) : Prop :=
  (forall c, head s = Some c -> is_space c = false) /\
  (forall c, last s = Some c -> is_space c = false).

(** A [str] is true in a condition when it is not empty. *)
Definition truthy (s : pystr) : bool :=
  match s with [] => false | _ :: _ => true end.

End PyStr.
Import PyStr.

(** ** The fence stripping of [get_visualization_code] *)

Definition backtick : char := 96.

(** ["```"] *)
Definition fence : pystr := [backtick; backtick; backtick].

(** ["```python"] *)
Definition fence_python : pystr := fence ++ lit "python".

(** [code.replace("```python", "").replace("```", "").strip()]. *)
Definition strip_fences (code : pystr) : pystr :=
  strip (replace fence [] (replace fence_python [] code)).

(** ** Python values, exceptions and the outside world *)

(** The objects generated code can leave in its scope. *)
Inductive pyval :=
| PyNone
| PyInt (z : Z)
| PyStr (s : pystr)
| PyFigure (id : N).

(** An instance of [Exception]: its class name and [str(e)]. *)
Record exn := Exn { exn_class : pystr; exn_str : pystr }.

(** The result of a call into the outside: it returns or it raises. *)
Inductive res (A : Type) :=
| Returned (a : A)
| Raised (e : exn).
Global Arguments Returned {A} a.
Global Arguments Raised {A} e.

(** What the script uses and the repository does not define.  Every call is
    taken to come back; [World] is whatever these calls depend on and change
    (the remote model, the random generator, the browser session). *)
Class Host := {
  World : Type;
  (** [model.generate_content(prompt).text]; an unbound [model] is a raise. *)
  generate_content : pystr -> World -> res pystr * World;
  (** [exec(code_str, exec_globals, local_scope)] on an empty
      [local_scope]: the scope it leaves when it completes, or the exception
      (the script never reads the bindings made before an exception). *)
  py_exec : pystr -> World -> res (gmap pystr pyval) * World;
  (** [st.plotly_chart(fig, use_container_width=True)]. *)
  plotly_chart : pyval -> World -> res unit * World
}.

(** The calls to Streamlit, with their arguments. *)
Inductive st_call :=
| StError (body : pystr)
| StTabs (labels : list pystr)
| StSpinner (text : pystr)
| StMarkdown (body : pystr)
| StEmpty
| StInfo (body : pystr)
| StExpander (label : pystr)
| StCode (body language : pystr)
| StPlotlyChart (figure : pyval)
| StSuccess (body : pystr)
| StWarning (body : pystr).

(** The calls to the two generators, with their arguments. *)
Inductive gen_call :=
| CallExplanation (concept : pystr)
| CallVisualization (concept : pystr) (error_context : option pystr).

Section Program.
Context `{H : Host}.

(** The outside, the calls made so far (oldest first), and the module-level
    variables of the retry logic. *)
Record state := State {
  world : World;
  st_calls : list st_call;
  gen_calls : list gen_call;
  attempt : nat;
  success : bool;
  last_error : option pystr;
  code_to_run : pystr;
  fig : option pyval
}.

Definition set_world (w : World) (s : state) : state :=
  State w (st_calls s) (gen_calls s) (attempt s) (success s) (last_error s)
        (code_to_run s) (fig s).
Definition log_st (c : st_call) (s : state) : state :=
  State (world s) (st_calls s ++ [c]) (gen_calls s) (attempt s) (success s)
        (last_error s) (code_to_run s) (fig s).
Definition log_gen (c : gen_call) (s : state) : state :=
  State (world s) (st_calls s) (gen_calls s ++ [c]) (attempt s) (success s)
        (last_error s) (code_to_run s) (fig s).
Definition set_attempt (n : nat) (s : state) : state :=
  State (world s) (st_calls s) (gen_calls s) n (success s) (last_error s)
        (code_to_run s) (fig s).
Definition set_success (b : bool) (s : state) : state :=
  State (world s) (st_calls s) (gen_calls s) (attempt s) b (last_error s)
        (code_to_run s) (fig s).
Definition set_last_error (e : option pystr) (s : state) : state :=
  State (world s) (st_calls s) (gen_calls s) (attempt s) (success s) e
        (code_to_run s) (fig s).
Definition set_code_to_run (c : pystr) (s : state) : state :=
  State (world s) (st_calls s) (gen_calls s) (attempt s) (success s)
        (last_error s) c (fig s).
Definition set_fig (f : option pyval) (s : state) : state :=
  State (world s) (st_calls s) (gen_calls s) (attempt s) (success s)
        (last_error s) (code_to_run s) f.

(** How a piece of the script ends: it returns, it raises, or the fuel of a
    [while] loop ran out before its condition became false. *)
Inductive outcome (A : Type) :=
| Ret (a : A)
| Raise (e : exn)
| Diverge.
Global Arguments Ret {A} a.
Global Arguments Raise {A} e.
Global Arguments Diverge {A}.

(** A piece of the script. *)
Definition Py (A : Type) : Type := state -> outcome A * state.

Definition py_ret {A} (a : A) : Py A := fun s => (Ret a, s).

Definition py_bind {A B} (k : A -> Py B) (m : Py A) : Py B :=
  fun s =>
    match m s with
    | (Ret a, s') => k a s'
    | (Raise e, s') => (Raise e, s')
    | (Diverge, s') => (Diverge, s')
    end.

Global Instance Py_ret : MRet Py := @py_ret.
Global Instance Py_bind : MBind Py := @py_bind.

(** [raise e]. *)
Definition raise {A} (e : exn) : Py A := fun s => (Raise e, s).

(** [try: body / except Exception as e: handler e]. *)
Definition try_except {A} (body : Py A) (handler : exn -> Py A) : Py A :=
  fun s =>
    match body s with
    | (Raise e, s') => handler e s'
    | r => r
    end.

(** Reading a variable, and an assignment or a logged call. *)
Definition get {A} (f : state -> A) : Py A := fun s => (Ret (f s), s).
Definition modify (f : state -> state) : Py unit := fun s => (Ret tt, f s).

(** A call into the outside. *)
Definition call_host {A} (f : World -> res A * World) : Py A :=
  fun s =>
    match f (world s) with
    | (Returned a, w) => (Ret a, set_world w s)
    | (Raised e, w) => (Raise e, set_world w s)
    end.

(** A call to Streamlit that only displays text. *)
Definition st (c : st_call) : Py unit := modify (log_st c).

(** [while cond: body], at most [fuel] iterations. *)
Fixpoint while (fuel : nat) (cond : state -> bool) (body : Py unit) : Py unit :=
  fun s =>
    if cond s then
      match fuel with
      | O => (Diverge, s)
      | S fuel' =>
          match body s with
          | (Ret _, s') => while fuel' cond body s'
          | r => r
          end
      end
    else (Ret tt, s).

(** ** [get_explanation] *)

Definition explanation_prompt (concept : pystr) : pystr :=
  lit "
        Explica el concepto '" ++ concept ++ lit "' de manera breve, didáctica y clara para un estudiante universitario. 
        Usa un tono educativo. Máximo 200 palabras.
        ".

Definition get_explanation (concept : pystr) : Py pystr :=
  modify (log_gen (CallExplanation concept));;
  try_except
    (text ← call_host (generate_content (explanation_prompt concept));
     mret text)
    (fun e => mret (lit "Error generando explicación: " ++ exn_str e)).

(** ** [get_visualization_code] *)

Definition base_prompt (concept : pystr) : pystr :=
  lit "
    Genera un script de Python COMPLETO y EJECUTABLE para visualizar el concepto: '" ++ concept ++ lit "' usando la librería 'plotly'.
    
    Reglas ESTRICTAS:
    1. El código debe crear un objeto figura de Plotly y guardarlo en una variable llamada `fig`.
    2. NO uses `fig.show()`. La figura se renderizará externamente.
    3. Si necesitas datos, genéralos dinámicamente usando `numpy` (np) o `pandas` (pd).
    4. Usa librerías estándar o `plotly`, `pandas`, `numpy`.
    5. El código debe ser autocontenido. No asumas archivos externos.
    6. Asegúrate de manejar etiquetas, títulos y leyendas para que la gráfica sea educativa.
    7. IMPORTANTE: La app puede estar en modo CLARO u OSCURO. Por favor:
       - Usa `fig.update_layout(paper_bgcolor='rgba(0,0,0,0)', plot_bgcolor='rgba(0,0,0,0)')` para fondo transparente.
       - Configura `height=700` en update_layout para que la gráfica se vea grande y clára.
       - Asegúrate que el texto y las líneas sean legibles en ambos fondos (o usa colores vibrantes).
    8. No incluyas bloques markdown (```python ... ```). Devuelve SOLAMENTE el código puro.
    
    Ejemplo de estructura esperada:
    import plotly.graph_objects as go
    import numpy as np
    x = np.linspace(0, 10, 100)
    y = np.sin(x)
    fig = go.Figure(data=go.Scatter(x=x, y=y))
    fig.update_layout(
        title='Seno de x',
        paper_bgcolor='rgba(0,0,0,0)',
        plot_bgcolor='rgba(0,0,0,0)',
        height=700,
        margin=dict(t=50, l=50, r=50, b=50)
    )
    ".

(** The prompt of a repair: the base prompt and the error of the attempt
    before. *)
Definition retry_prompt (concept err : pystr) : pystr :=
  lit "
        " ++ base_prompt concept ++ lit "
        
        INTENTO ANTERIOR FALLÓ CON ESTE ERROR:
        " ++ err ++ lit "
        
        Por favor corrige el código para solucionar el error.
        ".

(** [if error_context:] holds for a non-empty string only. *)
Definition visualization_prompt (concept : pystr)
    (error_context : option pystr) : pystr :=
  match error_context with
  | Some err => if truthy err then retry_prompt concept err
                else base_prompt concept
  | None => base_prompt concept
  end.

Definition get_visualization_code (concept : pystr)
    (error_context : option pystr) : Py pystr :=
  modify (log_gen (CallVisualization concept error_context));;
  try_except
    (text ← call_host
       (generate_content (visualization_prompt concept error_context));
     mret (strip_fences text))
    (fun e =>
       raise (Exn (lit "Exception")
                  (lit "Error generando código: " ++ exn_str e))).

(** ** [execute_and_render] *)

Definition fig_name : pystr := lit "fig".

Definition missing_fig : exn :=
  Exn (lit "ValueError")
      (lit "El código ejecutado no generó una variable 'fig'.").

Definition execute_and_render (code_str : pystr) : Py pyval :=
  try_except
    (local_scope ← call_host (py_exec code_str);
     match local_scope !! fig_name with
     | Some v => mret v
     | None => raise missing_fig
     end)
    (fun e => raise e).

(** ** The retry logic of the button handler *)

(** [f"{x}"] for a variable that holds a string or [None]. *)
Definition format_opt (x : option pystr) : pystr :=
  match x with
  | Some s => s
  | None => lit "None"
  end.

Definition info_text (attempt max_retries : nat) : pystr :=
  lit "Intento " ++ str_of_nat (attempt + 1) ++ lit "/"
    ++ str_of_nat max_retries ++ lit " generando código...".

Definition expander_label (attempt : nat) : pystr :=
  lit "Ver código generado (Intento " ++ str_of_nat (attempt + 1) ++ lit ")".

Definition warning_text (attempt : nat) (e : pystr) : pystr :=
  lit "Intento " ++ str_of_nat (attempt + 1) ++ lit " falló: " ++ e.

(** [except Exception as e:] of the loop body. *)
Definition on_failure (e : exn) : Py unit :=
  modify (set_last_error (Some (exn_str e)));;
  a ← get attempt;
  st (StWarning (warning_text a (exn_str e)));;
  modify (set_attempt (a + 1)).

(** The body of the [while] loop: one attempt. *)
Definition retry_attempt (concept : pystr) (max_retries : nat) : Py unit :=
  try_except
    (a ← get attempt;
     st (StInfo (info_text a max_retries));;
     err ← get last_error;
     code ← get_visualization_code concept err;
     modify (set_code_to_run code);;
     a ← get attempt;
     st (StExpander (expander_label a));;
     code ← get code_to_run;
     st (StCode code (lit "python"));;
     f ← execute_and_render code;
     modify (set_fig (Some f));;
     modify (log_st (StPlotlyChart f));;
     call_host (plotly_chart f);;
     modify (set_success true);;
     st (StSuccess (lit "¡Visualización generada con éxito!")))
    on_failure.

(** [attempt < max_retries and not success]. *)
Definition retry_cond (max_retries : nat) (s : state) : bool :=
  (attempt s <? max_retries)%nat && negb (success s).

(** The block under [with st.spinner("Diseñando ...")], for any bound in
    place of the script's [max_retries = 3]. *)
Definition retry_session (fuel : nat) (concept : pystr) (max_retries : nat)
    : Py unit :=
  modify (set_attempt 0);;
  modify (set_success false);;
  modify (set_last_error None);;
  modify (set_code_to_run []);;
  st StEmpty;;
  while fuel (retry_cond max_retries) (retry_attempt concept max_retries);;
  ok ← get success;
  if negb ok then
    st (StError
          (lit "No se pudo generar la visualización después de varios intentos."));;
    err ← get last_error;
    st (StError (lit "Último error: " ++ format_opt err))
  else mret tt.

(** The block under [if st.button("Generar Visualización", ...)]. *)
Definition on_generate (fuel : nat) (concept api_key : pystr) : Py unit :=
  if negb (truthy concept) then
    st (StError (lit "Por favor escribe un concepto."))
  else if negb (truthy api_key) then
    st (StError (lit "Por favor configura tu API Key en la barra lateral."))
  else
    st (StTabs [lit "Explicación"; lit "Visualización Interactiva"]);;
    st (StSpinner (lit "Generando explicación..."));;
    explanation ← get_explanation concept;
    st (StMarkdown explanation);;
    st (StSpinner (lit "Diseñando y programando visualización..."));;
    retry_session fuel concept 3.

End Program.

(** ** Views of the state used by the statements *)

(** The model's answer ["```python\nX\n```"] around a text [x]. *)
Definition fenced (x : pystr) : pystr :=
  fence_python ++ 10 :: x ++ 10 :: fence.

(** The texts of the [st.warning] calls, one per failed attempt. *)
Definition warnings (l : list st_call) : list pystr :=
  omap (fun c => match c with StWarning b => Some b | _ => None end) l.

(** The concept a generator was called with. *)
Definition call_concept (c : gen_call) : pystr :=
  match c with
  | CallExplanation concept => concept
  | CallVisualization concept _ => concept
  end.

Section Views.
Context `{H : Host}.

(** The state [on_failure] leaves: the reason recorded in [last_error], the
    warning displayed, the attempt counted. *)
Definition after_failure (reason : pystr) (s : state) : state :=
  set_attempt (attempt s + 1)
    (log_st (StWarning (warning_text (attempt s) reason))
       (set_last_error (Some reason) s)).

(** One failed attempt, seen from outside: it is counted, its reason is
    the new [last_error] and is displayed, success is not set. *)
Definition consumes_attempt (reason : pystr) (s s' : state) : Prop :=
  attempt s' = S (attempt s) /\
  success s' = success s /\
  last_error s' = Some reason /\
  warnings (st_calls s') =
    warnings (st_calls s) ++ [warning_text (attempt s) reason].

(** The state of a fresh run of the script. *)
Definition fresh (w : World) : state := State w [] [] 0 false None [] None.

End Views.

(** ** A scripted outside, for the examples *)

(** The model gives [answers] one after the other, [exec] and the renderer
    are fixed functions. *)
Record script := Script {
  answers : list (res pystr);
  runs : pystr -> res (gmap pystr pyval);
  renders : pyval -> res unit
}.

Definition quota_error : exn :=
  Exn (lit "ResourceExhausted") (lit "429 Quota exceeded").

Definition scripted (sc : script) : Host := {|
  World := nat;
  generate_content _ n := (nth n (answers sc) (Raised quota_error), S n);
  py_exec code w := (runs sc code, w);
  plotly_chart f w := (renders sc f, w)
|}.

Definition syntax_error : exn :=
  Exn (lit "SyntaxError") (lit "invalid syntax (<string>, line 1)").

(** [exec] on the few sources the examples use. *)
Definition toy_exec (code : pystr) : res (gmap pystr pyval) :=
  if decide (code = lit "fig = 1") then Returned {[ fig_name := PyInt 1 ]}
  else if decide (code = lit "fig = go.Figure()")
  then Returned {[ fig_name := PyFigure 0 ]}
  else if decide (code = lit "x = 1") then Returned {[ lit "x" := PyInt 1 ]}
  else if decide (code = lit "FIG = go.Figure()")
  then Returned {[ lit "FIG" := PyFigure 0 ]}
  else Raised syntax_error.

Definition plotly_error : exn :=
  Exn (lit "PlotlyError")
      (lit "The `figure_or_data` positional argument must be `dict`-like, `list`-like, or an instance of plotly.graph_objs.Figure").

(** The renderer accepts figures only. *)
Definition toy_render (f : pyval) : res unit :=
  match f with
  | PyFigure _ => Returned tt
  | _ => Raised plotly_error
  end.

(** The model answers the same text each time. *)
Definition always (answer : pystr) : script :=
  Script (repeat (Returned answer) 8) toy_exec toy_render.

(** The model always writes [fig = 1]: the code runs, the renderer refuses
    the integer. *)
Definition int_host : Host := scripted (always (lit "fig = 1")).

(** The model always writes a text that does not parse. *)
Definition broken_host : Host := scripted (always (lit "fig = (")).

(** The model always writes code that builds a figure, inside a fence. *)
Definition figure_host : Host :=
  scripted (always (fenced (lit "fig = go.Figure()"))).

(** The model cannot be reached. *)
Definition offline_host : Host := scripted (Script [] toy_exec toy_render).

(** The model forgets [fig] first and corrects itself on the second call. *)
Definition repairing_host : Host :=
  scripted
    (Script [Returned (lit "x = 1"); Returned (lit "fig = go.Figure()")]
            toy_exec toy_render).

(** The interpreter refuses every source. *)
Definition refusing_host : Host :=
  scripted
    (Script (repeat (Returned (lit "fig = (")) 8)
            (fun _ => Raised syntax_error) toy_render).

(** ** More views of the state *)

(** The texts of the [st.error] calls. *)
Definition errors (l : list st_call) : list pystr :=
  omap (fun c => match c with StError b => Some b | _ => None end) l.

(** ** The sidebar: key, model listing and model selection *)

(** What the script reads of a model description. *)
Record model_info := ModelInfo {
  model_name : pystr;
  supported_generation_methods : list pystr
}.

(** The iteration over [genai.list_models()]: the descriptions it yields
    and the exception, if any, that ends it. *)
Record listing := Listing {
  yielded : list model_info;
  interrupted : option exn
}.

(** The Gemini client and the select box, as the sidebar uses them. *)
Record console := Console {
  (** [genai.configure(api_key=api_key)] *)
  configure : pystr -> res unit;
  (** [genai.list_models()] *)
  list_models : listing;
  (** [st.sidebar.selectbox(label, options, index=index)]: the option the
      user has selected. *)
  selectbox : list pystr -> nat -> pystr;
  (** [genai.GenerativeModel(name)] *)
  generative_model : pystr -> res unit
}.

(** The calls to [st.sidebar], with their arguments. *)
Inductive sidebar_call :=
| SbError (body : pystr)
| SbSelectbox (label : pystr) (options : list pystr) (index : nat)
| SbSuccess (body icon : pystr)
| SbWarning (body : pystr).

(** A model description that lists ['generateContent']. *)
Definition generates (m : model_info) : Prop :=
  lit "generateContent" ∈ supported_generation_methods m.

(** [if 'generateContent' in m.supported_generation_methods:
        available_models.append(m.name)], over the descriptions yielded. *)
Definition collect_models (ms : list model_info) : list pystr :=
  fold_left
    (fun available_models m =>
       if bool_decide (lit "generateContent" ∈ supported_generation_methods m)
       then available_models ++ [model_name m]
       else available_models)
    ms [].

Definition preferred_models : list pystr :=
  [lit "models/gemini-1.5-flash"; lit "models/gemini-pro"].

(** [any(p in m_name for p in preferred_models)]. *)
Definition is_preferred (m_name : pystr) : bool :=
  existsb (fun p => occurs p m_name) preferred_models.

(** [for i, m_name in enumerate(available_models)] with its [break], from
    position [i] on. *)
Fixpoint scan_preferred (i : nat) (names : list pystr) (default_index : nat)
    : nat :=
  match names with
  | [] => default_index
  | m_name :: names' =>
      if is_preferred m_name then i
      else scan_preferred (S i) names' default_index
  end.

Definition default_index (available_models : list pystr) : nat :=
  scan_preferred 0 available_models 0.

(** The block under [api_key = st.sidebar.text_input(...)]: the calls to
    the sidebar and the name of the model bound to [model], if any. *)
Definition sidebar (c : console) (api_key : pystr)
    : list sidebar_call * option pystr :=
  if truthy api_key then
    match configure c api_key with
    | Raised e =>
        ([SbError (lit "Error al configurar API Key: " ++ exn_str e)], None)
    | Returned _ =>
        let available_models := collect_models (yielded (list_models c)) in
        let listed :=
          match interrupted (list_models c) with
          | Some e => [SbError (lit "Error listando modelos: " ++ exn_str e)]
          | None => []
          end in
        match available_models with
        | _ :: _ =>
            let index := default_index available_models in
            let selected_model_name := selectbox c available_models index in
            let shown :=
              listed ++
              [SbSelectbox (lit "Selecciona el modelo") available_models index]
            in
            match generative_model c selected_model_name with
            | Returned _ =>
                (shown ++
                 [SbSuccess (lit "Conectado a " ++ selected_model_name)
                            (lit "✅")],
                 Some selected_model_name)
            | Raised e =>
                (shown ++
                 [SbError (lit "Error al configurar API Key: " ++ exn_str e)],
                 None)
            end
        | [] =>
            (listed ++
             [SbError
                (lit "No se encontraron modelos disponibles para esta API Key.")],
             None)
        end
    end
  else ([SbWarning (lit "Por favor ingresa tu API Key para continuar.")], None).

(** A select box left at its default (the first option for a position
    that does not exist). *)
Definition untouched (options : list pystr) (index : nat) : pystr :=
  nth index options (hd [] options).

(** A listing of three models that breaks off after them. *)
Definition sample_listing : listing :=
  Listing
    [ModelInfo (lit "models/embedding-001") [lit "embedContent"];
     ModelInfo (lit "models/gemini-1.0-ultra")
               [lit "generateContent"; lit "countTokens"];
     ModelInfo (lit "models/gemini-1.5-flash-8b") [lit "generateContent"]]
    (Some quota_error).

Definition sample_console : console :=
  Console (fun _ => Returned tt) sample_listing untouched
          (fun _ => Returned tt).

(** ** A run of failing attempts *)

Section FailingRun.
Context `{H : Host}.

(** The state in which the loop starts: the assignments before it and the
    placeholder of the status line. *)
Definition session_start (s : state) : state :=
  log_st StEmpty
    (set_code_to_run []
       (set_last_error None (set_success false (set_attempt 0 s)))).

(** The attempt that starts in [s] ends in the [except] branch before
    anything is rendered, and [reason] is the text of its exception: either
    the model call raises [g] and [get_visualization_code] raises
    ["Error generando código: " + str(g)], or the code is generated and
    [execute_and_render] raises [e], with [reason = str(e)]. *)
Definition attempt_fails_with (concept : pystr) (s : state) (reason : pystr)
    : Prop :=
  match generate_content (visualization_prompt concept (last_error s))
          (world s) with
  | (Raised g, _) => reason = lit "Error generando código: " ++ exn_str g
  | (Returned text, w1) =>
      exists e,
        (execute_and_render (strip_fences text) (set_world w1 s)).1 = Raise e /\
        reason = exn_str e
  end.

(** The attempts of the run from [s] on fail one after the other, with
    these reasons. *)
Fixpoint run_fails (concept : pystr) (max_retries : nat)
    (reasons : list pystr) (s : state) : Prop :=
  match reasons with
  | [] => True
  | reason :: reasons' =>
      attempt_fails_with concept s reason /\
      run_fails concept max_retries reasons'
        (retry_attempt concept max_retries s).2
  end.

End FailingRun.

(** The model always writes code that runs and forgets [fig]. *)
Definition forgetful_host : Host := scripted (always (lit "x = 1")).

(** Whatever the source, [exec] leaves the one binding of [name] to [v]. *)
Definition binding_host (name : pystr) (v : pyval) : Host :=
  scripted (Script [] (fun _ => Returned {[ name := v ]}) toy_render).

(** ** Facts about Python strings *)

Section StringFacts.
Implicit Types p s t old new : list N.

Lemma starts_with_spec p s :
  starts_with p s = true <-> exists l, s = p ++ l.
Proof.
  revert s; induction p as [|a p IH]; intros s; simpl.
  - split; eauto.
  - destruct s as [|b s]; simpl.
    + split; [discriminate | intros [l Hl]; discriminate].
    + rewrite andb_true_iff, N.eqb_eq, IH. split.
      * intros [-> [l ->]]. eauto.
      * intros [l Hl]. injection Hl as -> ->. eauto.
Qed.

Lemma occurs_cons p c s :
  occurs p (c :: s) = starts_with p (c :: s) || occurs p s.
Proof. reflexivity. Qed.

Lemma occurs_spec p s :
  occurs p s = true <-> exists l1 l2, s = l1 ++ p ++ l2.
Proof.
  induction s as [|c s IH].
  - cbn [occurs]. rewrite orb_false_r, starts_with_spec. split.
    + intros [l Hl]. exists [], l. exact Hl.
    + intros (l1 & l2 & Hl). symmetry in Hl.
      apply app_eq_nil in Hl as [-> Hl]. eauto.
  - rewrite occurs_cons, orb_true_iff, starts_with_spec, IH. split.
    + intros [[l Hl] | (l1 & l2 & ->)].
      * exists [], l. exact Hl.
      * exists (c :: l1), l2. reflexivity.
    + intros (l1 & l2 & Hl). destruct l1 as [|c' l1].
      * left. eauto.
      * right. injection Hl as -> ->. eauto.
Qed.

Lemma occurs_false_app_r p l s : occurs p (l ++ s) = false -> occurs p s = false.
Proof.
  induction l as [|c l IH]; [tauto | ].
  cbn [app]. rewrite occurs_cons, orb_false_iff. tauto.
Qed.

Lemma starts_with_app p s l :
  starts_with p s = true -> starts_with p (s ++ l) = true.
Proof.
  rewrite !starts_with_spec. intros [k ->]. exists (k ++ l).
  now rewrite app_assoc.
Qed.

Lemma occurs_false_app_l p s l : occurs p (s ++ l) = false -> occurs p s = false.
Proof.
  rewrite <- !not_true_iff_false, !occurs_spec.
  intros Hn (l1 & l2 & ->). apply Hn. exists l1, (l2 ++ l).
  now rewrite <- !app_assoc.
Qed.

Lemma starts_with_trans q p s :
  starts_with q p = true -> starts_with p s = true -> starts_with q s = true.
Proof.
  rewrite !starts_with_spec. intros [k ->] [l ->]. exists (k ++ l).
  now rewrite app_assoc.
Qed.

Lemma occurs_from_prefix q p s :
  starts_with q p = true -> occurs q s = false -> occurs p s = false.
Proof.
  intros Hq. induction s as [|c s IH].
  - cbn [occurs]. rewrite !orb_false_r. intros Hs.
    apply not_true_iff_false. intros Hp.
    now rewrite (starts_with_trans _ _ _ Hq Hp) in Hs.
  - rewrite !occurs_cons, !orb_false_iff. intros [Hs Ho]. split; [|auto].
    apply not_true_iff_false. intros Hp.
    now rewrite (starts_with_trans _ _ _ Hq Hp) in Hs.
Qed.

(** *** [replace] *)

Lemma replace_from_skip old new k s :
  replace_from old new k s = replace_from old new 0 (drop k s).
Proof.
  revert k; induction s as [|c s IH]; intros [|k]; try reflexivity.
  cbn [replace_from drop]. apply IH.
Qed.

Lemma replace_from_cons old new c s :
  replace_from old new 0 (c :: s) =
  if starts_with old (c :: s)
  then new ++ replace_from old new 0 (drop (length old - 1) s)
  else c :: replace_from old new 0 s.
Proof.
  cbn [replace_from]. destruct (starts_with old (c :: s)); [|reflexivity].
  now rewrite replace_from_skip.
Qed.

Lemma replace_from_app old new t :
  old <> [] ->
  replace_from old new 0 (old ++ t) = new ++ replace_from old new 0 t.
Proof.
  destruct old as [|a old]; [done|]. intros _. cbn [app].
  rewrite replace_from_cons.
  assert (starts_with (a :: old) (a :: old ++ t) = true) as ->.
  { apply starts_with_spec. now exists t. }
  cbn [length]. rewrite Nat.sub_1_r. cbn [Nat.pred].
  now rewrite drop_app_length.
Qed.

Lemma replace_from_absent old new s :
  occurs old s = false -> replace_from old new 0 s = s.
Proof.
  induction s as [|c s IH]; [reflexivity|].
  rewrite occurs_cons, orb_false_iff. intros [Hs Ho].
  rewrite replace_from_cons, Hs. f_equal. auto.
Qed.

Lemma replace_absent old new s :
  occurs old s = false -> replace old new s = s.
Proof.
  destruct old as [|a old]; [destruct s; discriminate|].
  apply replace_from_absent.
Qed.

(** *** [strip] *)

Lemma lstrip_head s c : head (lstrip s) = Some c -> is_space c = false.
Proof.
  induction s as [|a s IH]; [discriminate|]. cbn [lstrip].
  destruct (is_space a) eqn:Ha; [exact IH|].
  cbn. intros [= <-]. exact Ha.
Qed.

Lemma lstrip_suffix s : exists k, s = k ++ lstrip s.
Proof.
  induction s as [|a s [k IH]]; [now exists []|]. cbn [lstrip].
  destruct (is_space a).
  - exists (a :: k). cbn. now f_equal.
  - now exists [].
Qed.

Lemma lstrip_id s :
  (forall c, head s = Some c -> is_space c = false) -> lstrip s = s.
Proof.
  destruct s as [|a s]; [reflexivity|]. intros Hs. cbn [lstrip].
  now rewrite (Hs a eq_refl).
Qed.

Lemma rstrip_prefix s : exists k, s = rstrip s ++ k.
Proof.
  unfold rstrip. destruct (lstrip_suffix (reverse s)) as [k Hk].
  exists (reverse k). rewrite <- reverse_app, <- Hk.
  now rewrite reverse_involutive.
Qed.

Lemma rstrip_last s c : last (rstrip s) = Some c -> is_space c = false.
Proof. unfold rstrip. rewrite last_reverse. apply lstrip_head. Qed.

Lemma rstrip_id s :
  (forall c, last s = Some c -> is_space c = false) -> rstrip s = s.
Proof.
  intros Hs. unfold rstrip. rewrite lstrip_id, reverse_involutive; [done|].
  intros c. rewrite head_reverse. apply Hs.
Qed.

Lemma strip_trimmed s : trimmed (strip s).
Proof.
  split; [|apply rstrip_last]. unfold strip. intros c Hc.
  destruct (rstrip_prefix (lstrip s)) as [k Hk].
  apply (lstrip_head s). rewrite Hk.
  destruct (rstrip (lstrip s)); [discriminate|exact Hc].
Qed.


Lemma strip_absent p s : occurs p s = false -> occurs p (strip s) = false.
Proof.
  intros Hs. unfold strip.
  destruct (lstrip_suffix s) as [k Hk].
  destruct (rstrip_prefix (lstrip s)) as [k' Hk'].
  rewrite Hk in Hs. apply occurs_false_app_r in Hs.
  rewrite Hk' in Hs. now apply occurs_false_app_l in Hs.
Qed.

End StringFacts.

(** ** Facts about the fence stripping *)

Section FenceFacts.
Implicit Types s t x : list N.

Lemma replace_fence_cons c s :
  replace_from fence [] 0 (c :: s) =
  if starts_with fence (c :: s)
  then replace_from fence [] 0 (drop 2 s)
  else c :: replace_from fence [] 0 s.
Proof. apply (replace_from_cons fence []). Qed.

(** Removing the fences leaves no backtick in front where there was none,
    and no two where there were not two. *)
Lemma replace_fence_head1 s :
  starts_with [backtick] s = false ->
  starts_with [backtick] (replace_from fence [] 0 s) = false.
Proof.
  destruct s as [|c s]; [reflexivity|]. intros Hs.
  rewrite replace_fence_cons.
  assert (starts_with fence (c :: s) = false) as ->; [|exact Hs].
  unfold fence. cbn [starts_with] in *.
  destruct (backtick =? c); [discriminate | reflexivity].
Qed.

Lemma replace_fence_head2 s :
  starts_with [backtick; backtick] s = false ->
  starts_with [backtick; backtick] (replace_from fence [] 0 s) = false.
Proof.
  destruct s as [|c s]; [reflexivity|]. intros Hs.
  rewrite replace_fence_cons.
  assert (starts_with fence (c :: s) = false) as ->.
  { apply not_true_iff_false. intros Hf. rewrite <- not_true_iff_false in Hs.
    apply Hs. revert Hf. apply starts_with_trans. reflexivity. }
  cbn [starts_with] in *. destruct (backtick =? c); [|reflexivity].
  cbn [andb] in *. now apply replace_fence_head1.
Qed.

(** After [replace("```", "")] no fence is left anywhere. *)
Lemma replace_fence_absent s :
  occurs fence (replace_from fence [] 0 s) = false.
Proof.
  remember (length s) as n eqn:Hn. revert s Hn.
  induction n as [n IH] using lt_wf_ind. intros [|c s] Hn; [reflexivity|].
  rewrite replace_fence_cons.
  destruct (starts_with fence (c :: s)) eqn:Hf.
  - apply (IH (length (drop 2 s))); [|reflexivity].
    rewrite Hn, length_drop. cbn [length]. lia.
  - rewrite occurs_cons, orb_false_iff. split.
    + cbn [fence starts_with] in *. destruct (backtick =? c); [|reflexivity].
      cbn [andb] in *. now apply replace_fence_head2.
    + apply (IH (length s)); [|reflexivity]. rewrite Hn. cbn [length]. lia.
Qed.

Lemma strip_fences_absent s : occurs fence (strip_fences s) = false.
Proof. apply strip_absent, replace_fence_absent. Qed.

Lemma strip_fences_trimmed s : trimmed (strip_fences s).
Proof. apply strip_trimmed. Qed.


(** A fence cannot begin before a newline and end after it. *)
Lemma starts_with_fence_newline x t :
  starts_with fence (x ++ 10 :: t) = true -> starts_with fence x = true.
Proof.
  destruct x as [|a [|b [|c x]]]; cbn; try discriminate;
    repeat (destruct (_ =? _); cbn; try discriminate); auto.
Qed.

(** A pattern that begins with a fence is not found before a newline in a
    text without fences. *)
Lemma replace_before_newline p x t :
  starts_with fence p = true -> occurs fence x = false ->
  replace_from p [] 0 (x ++ 10 :: t) = x ++ replace_from p [] 0 (10 :: t).
Proof.
  intros Hp. induction x as [|c x IH]; [reflexivity|].
  rewrite occurs_cons, orb_false_iff. intros [Hs Ho].
  cbn [app]. rewrite replace_from_cons.
  assert (starts_with p (c :: x ++ 10 :: t) = false) as ->.
  { apply not_true_iff_false. intros Hf.
    apply (starts_with_trans _ _ _ Hp) in Hf.
    apply (starts_with_fence_newline (c :: x)) in Hf. congruence. }
  f_equal. auto.
Qed.

Lemma strip_between_newlines x : trimmed x -> strip (10 :: x ++ [10]) = x.
Proof.
  intros [Hh Hl]. unfold strip. change (lstrip (10 :: x ++ [10])) with (lstrip (x ++ [10])).
  destruct x as [|c x]; [reflexivity|].
  cbn [app lstrip]. rewrite (Hh c eq_refl).
  change (c :: x ++ [10]) with ((c :: x) ++ [10]).
  unfold rstrip. rewrite reverse_app. change (reverse [10]) with [10].
  change (lstrip ([10] ++ reverse (c :: x))) with (lstrip (reverse (c :: x))).
  now apply rstrip_id.
Qed.

Lemma replace_newline p t :
  starts_with fence p = true ->
  replace_from p [] 0 (10 :: t) = 10 :: replace_from p [] 0 t.
Proof.
  intros Hp. rewrite replace_from_cons.
  assert (starts_with p (10 :: t) = false) as ->; [|reflexivity].
  apply not_true_iff_false. intros Hf.
  apply (starts_with_trans _ _ _ Hp) in Hf. discriminate.
Qed.

Lemma replace_fenced p x :
  starts_with fence p = true -> occurs fence x = false ->
  replace_from p [] 0 (10 :: x ++ 10 :: fence) =
  10 :: x ++ 10 :: replace_from p [] 0 fence.
Proof.
  intros Hp Hx.
  now rewrite (replace_newline p _ Hp), (replace_before_newline p x fence Hp Hx),
    (replace_newline p _ Hp).
Qed.



End FenceFacts.

(** ** Facts about the script *)

Lemma warnings_app l1 l2 : warnings (l1 ++ l2) = warnings l1 ++ warnings l2.
Proof. apply omap_app. Qed.

Lemma warnings_snoc l c :
  warnings (l ++ [c]) =
  warnings l ++ match c with StWarning b => [b] | _ => [] end.
Proof. rewrite warnings_app. now destruct c. Qed.

(** Unfolds the monad and the state accessors on a state given by its
    fields. *)
Ltac run_py :=
  cbv [mbind mret Py_bind Py_ret py_bind py_ret try_except raise get modify
       st call_host on_failure after_failure
       world st_calls gen_calls attempt success last_error code_to_run fig
       set_world log_st log_gen set_attempt set_success set_last_error
       set_code_to_run set_fig fst snd].

Ltac run_py_in Hyp :=
  cbv [world st_calls gen_calls attempt success last_error code_to_run fig
       set_world log_st log_gen set_attempt set_success set_last_error
       set_code_to_run set_fig fst snd] in Hyp.

(** Projections of the states an attempt goes through. *)
Ltac fields s :=
  destruct s; run_py; rewrite ?warnings_snoc; cbv beta iota;
  rewrite ?app_nil_r; auto.

Section ProgramFacts.
Context `{H : Host}.
Local Open Scope nat_scope.
Implicit Types s : state.

Lemma get_explanation_eq concept s :
  get_explanation concept s =
  let r := generate_content (explanation_prompt concept) (world s) in
  (Ret match r.1 with
       | Returned text => text
       | Raised e => lit "Error generando explicación: " ++ exn_str e
       end,
   set_world r.2 (log_gen (CallExplanation concept) s)).
Proof.
  destruct s as [w sc gc a su le c f]. unfold get_explanation. run_py.
  now destruct (generate_content _ w) as [[text|e] w1].
Qed.

Lemma get_visualization_code_eq concept err s :
  get_visualization_code concept err s =
  let r := generate_content (visualization_prompt concept err) (world s) in
  (match r.1 with
   | Returned text => Ret (strip_fences text)
   | Raised e =>
       Raise (Exn (lit "Exception")
                  (lit "Error generando código: " ++ exn_str e))
   end,
   set_world r.2 (log_gen (CallVisualization concept err) s)).
Proof.
  destruct s as [w sc gc a su le c f]. unfold get_visualization_code. run_py.
  now destruct (generate_content _ w) as [[text|e] w1].
Qed.

Lemma execute_and_render_eq code s :
  execute_and_render code s =
  let r := py_exec code (world s) in
  (match r.1 with
   | Returned local_scope =>
       match local_scope !! fig_name with
       | Some v => Ret v
       | None => Raise missing_fig
       end
   | Raised e => Raise e
   end,
   set_world r.2 s).
Proof.
  destruct s as [w sc gc a su le c f]. unfold execute_and_render. run_py.
  destruct (py_exec code w) as [[scope|e] w1]; [|reflexivity].
  now destruct (scope !! fig_name).
Qed.

(** One attempt, by the answers of the outside. *)
Lemma retry_attempt_eq concept N s :
  retry_attempt concept N s =
  let s1 :=
    log_gen (CallVisualization concept (last_error s))
      (log_st (StInfo (info_text (attempt s) N)) s) in
  match generate_content (visualization_prompt concept (last_error s))
          (world s) with
  | (Raised e, w1) =>
      (Ret tt,
       after_failure (lit "Error generando código: " ++ exn_str e)
         (set_world w1 s1))
  | (Returned text, w1) =>
      let code := strip_fences text in
      let s2 :=
        log_st (StCode code (lit "python"))
          (log_st (StExpander (expander_label (attempt s)))
             (set_code_to_run code (set_world w1 s1))) in
      match py_exec code w1 with
      | (Raised e, w2) => (Ret tt, after_failure (exn_str e) (set_world w2 s2))
      | (Returned local_scope, w2) =>
          match local_scope !! fig_name with
          | None =>
              (Ret tt, after_failure (exn_str missing_fig) (set_world w2 s2))
          | Some f =>
              let s3 :=
                log_st (StPlotlyChart f)
                  (set_fig (Some f) (set_world w2 s2)) in
              match plotly_chart f w2 with
              | (Raised e, w3) =>
                  (Ret tt, after_failure (exn_str e) (set_world w3 s3))
              | (Returned _, w3) =>
                  (Ret tt,
                   log_st (StSuccess (lit "¡Visualización generada con éxito!"))
                     (set_success true (set_world w3 s3)))
              end
          end
      end
  end.
Proof.
  destruct s as [w sc gc a su le c f].
  unfold retry_attempt, get_visualization_code, execute_and_render. run_py.
  destruct (generate_content _ w) as [[text|e] w1]; [|reflexivity].
  destruct (py_exec _ w1) as [[scope|e] w2]; [|reflexivity].
  destruct (scope !! fig_name) as [v|]; [|reflexivity].
  now destruct (plotly_chart v w2) as [[[]|e] w3].
Qed.

(** What a failed attempt leaves, whatever the state it failed in. *)
Lemma after_failure_consumes reason s0 s :
  attempt s0 = attempt s -> success s0 = success s ->
  warnings (st_calls s0) = warnings (st_calls s) ->
  consumes_attempt reason s (after_failure reason s0).
Proof.
  destruct s0, s. unfold consumes_attempt. run_py. intros -> -> Hw.
  rewrite warnings_snoc, Hw, Nat.add_1_r. auto.
Qed.

(** An attempt returns: it has called the generator once, with the last
    error, and either an execution returned an object and the attempt
    succeeded, or the attempt was consumed. *)
Lemma retry_attempt_cases concept N s :
  exists s',
    retry_attempt concept N s = (Ret tt, s') /\
    gen_calls s' = gen_calls s ++ [CallVisualization concept (last_error s)] /\
    ((success s' = true /\ attempt s' = attempt s /\
      last_error s' = last_error s /\
      warnings (st_calls s') = warnings (st_calls s) /\
      exists code s0 f s1, execute_and_render code s0 = (Ret f, s1))
     \/ exists reason, consumes_attempt reason s s').
Proof.
  rewrite retry_attempt_eq. cbv zeta.
  destruct (generate_content _ _) as [[text|e] w1].
  2: { eexists; split; [reflexivity|]. split; [fields s|]. right.
       eexists. apply after_failure_consumes; fields s. }
  destruct (py_exec _ w1) as [[scope|e] w2] eqn:He.
  2: { eexists; split; [reflexivity|]. split; [fields s|]. right.
       eexists. apply after_failure_consumes; fields s. }
  destruct (scope !! fig_name) as [v|] eqn:Hv.
  2: { eexists; split; [reflexivity|]. split; [fields s|]. right.
       eexists. apply after_failure_consumes; fields s. }
  destruct (plotly_chart v w2) as [[[]|e] w3].
  - eexists; split; [reflexivity|]. split; [fields s|]. left.
    repeat split; [fields s ..|].
    exists (strip_fences text), (set_world w1 s), v.
    rewrite execute_and_render_eq. cbv zeta.
    replace (world (set_world w1 s)) with w1 by now destruct s.
    rewrite He. cbn [fst snd]. rewrite Hv. eauto.
  - eexists; split; [reflexivity|]. split; [fields s|]. right.
    eexists. apply after_failure_consumes; fields s.
Qed.

(** *** The loop *)

Lemma while_done fuel cond body s :
  cond s = false -> while fuel cond body s = (Ret tt, s).
Proof. intros Hc. destruct fuel; cbn; now rewrite Hc. Qed.

Lemma while_step fuel cond body s s' :
  cond s = true -> body s = (Ret tt, s') ->
  while (S fuel) cond body s = while fuel cond body s'.
Proof. intros Hc Hb. cbn. now rewrite Hc, Hb. Qed.

(** An invariant of the body holds when the loop stops, however it stops. *)
Lemma while_invariant (P : state -> Prop) fuel cond body :
  (forall s, P s -> P (body s).2) ->
  forall s, P s -> P (while fuel cond body s).2.
Proof.
  intros Hb. induction fuel as [|fuel IH]; intros s Hs; cbn.
  - now destruct (cond s).
  - destruct (cond s); [|exact Hs].
    specialize (Hb s Hs). destruct (body s) as [[[]|e|] s']; auto.
Qed.

Lemma retry_cond_true N s :
  retry_cond N s = true <-> attempt s < N /\ success s = false.
Proof.
  unfold retry_cond. rewrite andb_true_iff, Nat.ltb_lt, negb_true_iff. tauto.
Qed.

Lemma retry_cond_stop N s :
  success s = true \/ N <= attempt s -> retry_cond N s = false.
Proof.
  intros Hs. apply not_true_iff_false. rewrite retry_cond_true.
  intros [? ?]. destruct Hs; [congruence | lia].
Qed.

(** The loop stops within [N - attempt] iterations. *)
Lemma retry_loop_terminates concept N n :
  forall fuel s, N - attempt s <= n -> n <= fuel ->
  exists s',
    while fuel (retry_cond N) (retry_attempt concept N) s = (Ret tt, s') /\
    retry_cond N s' = false /\
    exists calls, gen_calls s' = gen_calls s ++ calls /\ length calls <= n.
Proof.
  induction n as [|n IH]; intros fuel s Hm Hf.
  - exists s. rewrite while_done by (apply retry_cond_stop; lia).
    repeat split; [apply retry_cond_stop; lia|].
    exists []. now rewrite app_nil_r.
  - destruct (retry_cond N s) eqn:Hc.
    2: { exists s. rewrite while_done by done. repeat split; [done|].
         exists []. rewrite app_nil_r. split; [done | cbn; lia]. }
    apply retry_cond_true in Hc as [Ha Hs].
    destruct fuel as [|fuel]; [lia|].
    destruct (retry_attempt_cases concept N s) as (s1 & Hr & Hg & Hk).
    rewrite (while_step _ _ _ s s1) by (done || now apply retry_cond_true).
    destruct Hk as [(Hok & _) | (reason & Ha1 & _)].
    + exists s1. rewrite while_done by (apply retry_cond_stop; auto).
      repeat split; [apply retry_cond_stop; auto|].
      exists [CallVisualization concept (last_error s)]. split; [done|cbn; lia].
    + destruct (IH fuel s1) as (s' & Hw & Hstop & calls & Hcalls & Hlen);
        [lia | lia |].
      exists s'. repeat split; [done | done |].
      exists (CallVisualization concept (last_error s) :: calls).
      rewrite Hcalls, Hg, <- app_assoc. split; [done | cbn; lia].
Qed.

(** The session, by the way its loop stops. *)
Lemma retry_session_eq fuel concept N s :
  retry_session fuel concept N s =
  let s0 :=
    log_st StEmpty
      (set_code_to_run []
         (set_last_error None (set_success false (set_attempt 0 s)))) in
  match while fuel (retry_cond N) (retry_attempt concept N) s0 with
  | (Ret _, s1) =>
      (Ret tt,
       if success s1 then s1
       else
         log_st (StError (lit "Último error: " ++ format_opt (last_error s1)))
           (log_st
              (StError
                 (lit "No se pudo generar la visualización después de varios intentos."))
              s1))
  | (Raise e, s1) => (Raise e, s1)
  | (Diverge, s1) => (Diverge, s1)
  end.
Proof.
  destruct s as [w sc gc a su le c f]. unfold retry_session. run_py.
  destruct (while _ _ _ _) as [[[]|e|] s1]; try reflexivity.
  destruct s1 as [w1 sc1 gc1 a1 su1 le1 c1 f1]. now destruct su1.
Qed.

Lemma last_none_some (rs : list (list N)) :
  last (None :: (Some <$> rs)) = Some (last rs).
Proof. rewrite last_cons, fmap_last. now destruct (last rs). Qed.

(** An execution that raises consumes the attempt, with [str(e)] as reason. *)
Lemma execution_failure_consumes concept N s text w1 e :
  generate_content (visualization_prompt concept (last_error s)) (world s)
    = (Returned text, w1) ->
  (execute_and_render (strip_fences text) (set_world w1 s)).1 = Raise e ->
  exists s',
    retry_attempt concept N s = (Ret tt, s') /\
    consumes_attempt (exn_str e) s s' /\
    gen_calls s' = gen_calls s ++ [CallVisualization concept (last_error s)].
Proof.
  intros Hg. rewrite execute_and_render_eq, retry_attempt_eq, Hg. cbv zeta.
  replace (world (set_world w1 s)) with w1 by now destruct s.
  destruct (py_exec _ w1) as [[scope|e'] w2]; cbn [fst].
  - destruct (scope !! fig_name); [discriminate|]. intros [= <-].
    eexists; split; [reflexivity|].
    split; [apply after_failure_consumes; fields s | fields s].
  - intros [= <-]. eexists; split; [reflexivity|].
    split; [apply after_failure_consumes; fields s | fields s].
Qed.

(** A model call that raises consumes the attempt, with the message of the
    exception [get_visualization_code] raises as reason. *)
Lemma generation_failure_consumes concept N s e w1 :
  generate_content (visualization_prompt concept (last_error s)) (world s)
    = (Raised e, w1) ->
  exists s',
    retry_attempt concept N s = (Ret tt, s') /\
    consumes_attempt (lit "Error generando código: " ++ exn_str e) s s' /\
    gen_calls s' = gen_calls s ++ [CallVisualization concept (last_error s)].
Proof.
  intros Hg. rewrite retry_attempt_eq, Hg. cbv zeta.
  eexists; split; [reflexivity|].
  split; [apply after_failure_consumes; fields s | fields s].
Qed.

(** The handler, by the two guards. *)
Lemma on_generate_eq fuel concept api_key s :
  on_generate fuel concept api_key s =
  if negb (truthy concept) then
    (Ret tt, log_st (StError (lit "Por favor escribe un concepto.")) s)
  else if negb (truthy api_key) then
    (Ret tt,
     log_st
       (StError (lit "Por favor configura tu API Key en la barra lateral.")) s)
  else
    let s1 :=
      log_st (StSpinner (lit "Generando explicación..."))
        (log_st (StTabs [lit "Explicación"; lit "Visualización Interactiva"])
           s) in
    match get_explanation concept s1 with
    | (Ret explanation, s2) =>
        retry_session fuel concept 3
          (log_st (StSpinner (lit "Diseñando y programando visualización..."))
             (log_st (StMarkdown explanation) s2))
    | (Raise e, s2) => (Raise e, s2)
    | (Diverge, s2) => (Diverge, s2)
    end.
Proof.
  unfold on_generate. destruct (negb (truthy concept)); [reflexivity|].
  destruct (negb (truthy api_key)); [reflexivity|].
  destruct s as [w sc gc a su le c f]. run_py.
  now destruct (get_explanation _ _) as [[explanation|e|] [w2 sc2 gc2 a2 su2 le2 c2 f2]].
Qed.

(** Every call of the session to the generator is for its concept. *)
Lemma retry_session_gen_calls fuel concept N s :
  exists new,
    gen_calls (retry_session fuel concept N s).2 = gen_calls s ++ new /\
    Forall (fun c => call_concept c = concept) new.
Proof.
  rewrite retry_session_eq. cbv zeta.
  set (s0 := log_st StEmpty _).
  assert (Hinv : exists new,
    gen_calls (while fuel (retry_cond N) (retry_attempt concept N) s0).2
      = gen_calls s ++ new /\
    Forall (fun c => call_concept c = concept) new).
  { apply (while_invariant (fun s' => exists new,
      gen_calls s' = gen_calls s ++ new /\
      Forall (fun c => call_concept c = concept) new)).
    - intros s1 (new & Hn & Hall).
      destruct (retry_attempt_cases concept N s1) as (s2 & -> & Hg & _).
      exists (new ++ [CallVisualization concept (last_error s1)]).
      cbn [snd]. rewrite Hg, Hn, <- app_assoc. split; [done|].
      apply Forall_app. split; [done|]. now constructor.
    - exists []. split; [subst s0; fields s | constructor]. }
  destruct (while _ _ _ _) as [[[]|e|] s1]; cbn [snd] in *; try exact Hinv.
  destruct (success s1); [exact Hinv|].
  destruct Hinv as (new & Hn & Hall). exists new. split; [|done].
  rewrite <- Hn. now destruct s1.
Qed.

End ProgramFacts.

(** ** The claims about the generators and the executor *)

Section LeafClaims.
Context `{H : Host}.
Local Open Scope nat_scope.
Implicit Types s : state.

(** C9. [get_explanation] never raises to its caller. For every concept it
    returns a text: the answer of the model, or, when the model call raises,
    the message ["Error generando explicación: "] followed by the error. It
    calls the model once (no retry) and leaves the Streamlit output and the
    variables of the retry logic as they were. *)
Theorem get_explanation_never_raises concept s :
  exists text s',
    get_explanation concept s = (Ret text, s') /\
    text =
      match (generate_content (explanation_prompt concept) (world s)).1 with
      | Returned answer => answer
      | Raised e => lit "Error generando explicación: " ++ exn_str e
      end /\
    world s' = (generate_content (explanation_prompt concept) (world s)).2 /\
    gen_calls s' = gen_calls s ++ [CallExplanation concept] /\
    st_calls s' = st_calls s /\ attempt s' = attempt s /\
    success s' = success s /\ last_error s' = last_error s /\
    code_to_run s' = code_to_run s /\ fig s' = fig s.
Proof.
  rewrite get_explanation_eq. cbv zeta. eexists _, _.
  split; [reflexivity|]. split; [reflexivity|].
  destruct s. repeat split.
Qed.

(** C8. When the execution of the source completes, [execute_and_render]
    returns an object exactly when the resulting local scope binds the name
    ['fig'], and it returns the bound object whatever its type: with ['fig']
    bound to the integer 1 it returns 1. A scope without ['fig'], and so a
    scope whose only binding has any other name (['Fig'], ['FIG'],
    ['figure']), gives the [ValueError] of the missing output; a source
    that raises gives its exception, whatever it had bound. *)
Theorem execute_and_render_looks_up_fig code s :
  let r := (py_exec code (world s)).1 in
  let out := (execute_and_render code s).1 in
  let missing :=
    Exn (lit "ValueError")
        (lit "El código ejecutado no generó una variable 'fig'.") in
  (forall v, out = Ret v <->
             exists scope, r = Returned scope /\ scope !! lit "fig" = Some v) /\
  (forall scope, r = Returned scope -> scope !! lit "fig" = None ->
                 out = Raise missing) /\
  (forall scope, r = Returned scope -> scope !! lit "fig" = Some (PyInt 1) ->
                 out = Ret (PyInt 1)) /\
  (forall name v, name <> lit "fig" -> r = Returned {[ name := v ]} ->
                  out = Raise missing) /\
  (forall e, r = Raised e -> out = Raise e).
Proof.
  cbv zeta. rewrite execute_and_render_eq. cbv zeta. cbn [fst].
  change (lit "fig") with fig_name.
  change (Exn (lit "ValueError")
              (lit "El código ejecutado no generó una variable 'fig'."))
    with missing_fig.
  destruct (py_exec code (world s)) as [[scope|e] w]; cbn [fst].
  - repeat split.
    + destruct (scope !! fig_name) eqn:Hv; [|discriminate].
      intros [= <-]. eauto.
    + intros (scope' & [= <-] & ->). reflexivity.
    + intros scope' [= <-] ->. reflexivity.
    + intros scope' [= <-] ->. reflexivity.
    + intros name v Hn [= ->]. now rewrite lookup_singleton_ne.
    + discriminate.
  - repeat split; try discriminate.
    + intros (scope & Hr & _). discriminate.
    + now intros e' [= ->].
Qed.

(** C1, as amended. An exception of the executed source, and the
    [ValueError] of a scope without [fig], is raised by
    [execute_and_render] to its caller unchanged. The loop body catches it:
    the attempt returns normally, with [str(e)] recorded as [last_error] and
    displayed, and the attempt counted. *)
Theorem execution_error_reraised_then_caught code s e :
  (let r := (py_exec code (world s)).1 in
   r = Raised e \/
   exists scope, r = Returned scope /\ scope !! fig_name = None /\
                 e = missing_fig) ->
  (execute_and_render code s).1 = Raise e /\
  forall concept N s0 text,
    generate_content (visualization_prompt concept (last_error s0)) (world s0)
      = (Returned text, world s) ->
    strip_fences text = code ->
    exists s',
      retry_attempt concept N s0 = (Ret tt, s') /\
      consumes_attempt (exn_str e) s0 s'.
Proof.
  cbv zeta. intros Hr.
  assert (Hx : (execute_and_render code s).1 = Raise e).
  { rewrite execute_and_render_eq. cbv zeta. cbn [fst].
    destruct Hr as [-> | (scope & -> & -> & ->)]; reflexivity. }
  split; [exact Hx|]. intros concept N s0 text Hg <-.
  destruct (execution_failure_consumes concept N s0 text (world s) e Hg)
    as (s' & Hs' & Hc & _); [|eauto].
  rewrite execute_and_render_eq in Hx |- *. cbv zeta in Hx |- *.
  now replace (world (set_world (world s) s0)) with (world s) by now destruct s0.
Qed.

(** C10. The code [get_visualization_code] returns is the answer of the model
    with every ["```python"] and then every ["```"] deleted and the white
    space at both ends removed: it contains no three backticks in a row
    anywhere and neither starts nor ends with white space. Fences inside
    the code are deleted too, so code such as [fig = '```'] is changed. *)
Theorem generated_code_has_no_fence concept err s code s' :
  get_visualization_code concept err s = (Ret code, s') ->
  (exists text,
     (generate_content (visualization_prompt concept err) (world s)).1
       = Returned text /\
     code = strip (replace fence [] (replace fence_python [] text))) /\
  (forall l1 l2, code <> l1 ++ fence ++ l2) /\
  trimmed code /\
  strip_fences (lit "fig = '```'") = lit "fig = ''" /\
  strip_fences (lit "s = '```python'") = lit "s = ''".
Proof.
  rewrite get_visualization_code_eq. cbv zeta.
  destruct (generate_content _ _) as [[text|e] w]; cbn [fst snd];
    [|discriminate].
  intros [= <- _]. split; [eauto|]. split; [|split].
  - intros l1 l2 Heq.
    assert (Ho : occurs fence (strip_fences text) = true).
    { apply occurs_spec. eauto. }
    now rewrite strip_fences_absent in Ho.
  - apply strip_fences_trimmed.
  - split; reflexivity.
Qed.

End LeafClaims.

(** ** The claims about the retry logic *)

Section RetryClaims.
Context `{H : Host}.
Local Open Scope nat_scope.
Implicit Types s : state.

(** The retry logic returns when it has as much fuel as attempts. *)
Lemma retry_session_stops fuel concept N s :
  N <= fuel ->
  exists s' calls,
    retry_session fuel concept N s = (Ret tt, s') /\
    gen_calls s' = gen_calls s ++ calls /\
    length calls <= N /\
    retry_cond N s' = false.
Proof.
  intros Hf. destruct s as [w sc gc a su le c f].
  rewrite retry_session_eq. cbv zeta.
  set (s0 := log_st StEmpty _).
  destruct (retry_loop_terminates concept N N fuel s0)
    as (s1 & -> & Hstop & calls & Hc & Hlen); [lia | done |].
  destruct s1 as [w1 sc1 gc1 a1 su1 le1 c1 f1].
  eexists _, calls. split; [reflexivity|].
  split; [now destruct su1|]. split; [done|]. now destruct su1.
Qed.

(** C3. For every concept and every bound [N], whatever the model, the
    interpreter and the renderer answer, the retry logic returns after at
    most [N] calls of the generator: [N] iterations of fuel are enough for
    the loop to stop by its own condition. So the button handler, whose
    bound is 3, returns for every concept and key. *)
Theorem retry_session_terminates fuel concept N s :
  N <= fuel ->
  (exists s' calls,
     retry_session fuel concept N s = (Ret tt, s') /\
     gen_calls s' = gen_calls s ++ calls /\
     length calls <= N /\
     retry_cond N s' = false) /\
  (3 <= fuel ->
   forall api_key, exists s', on_generate fuel concept api_key s = (Ret tt, s')).
Proof.
  intros Hf. split; [now apply retry_session_stops|].
  intros H3 api_key. rewrite on_generate_eq.
  destruct (negb (truthy concept)); [eauto|].
  destruct (negb (truthy api_key)); [eauto|].
  cbv zeta. rewrite get_explanation_eq. cbv beta iota zeta.
  match goal with |- context [retry_session _ _ _ ?x] =>
    destruct (retry_session_stops fuel concept 3 x H3) as (s' & _ & -> & _)
  end.
  eauto.
Qed.

(** An attempt that fails with a reason is consumed with that reason. *)
Lemma attempt_fails_consumes concept N s reason :
  attempt_fails_with concept s reason ->
  exists s',
    retry_attempt concept N s = (Ret tt, s') /\
    consumes_attempt reason s s' /\
    gen_calls s' = gen_calls s ++ [CallVisualization concept (last_error s)].
Proof.
  unfold attempt_fails_with.
  destruct (generate_content _ _) as [[text|g] w1] eqn:Hg.
  - intros (e & Hx & ->).
    exact (execution_failure_consumes concept N s text w1 e Hg Hx).
  - intros ->. exact (generation_failure_consumes concept N s g w1 Hg).
Qed.

(** The loop over a run of failing attempts: each attempt is called with
    the reason of the one before and displays its own. *)
Lemma retry_loop_run_fails concept N :
  forall reasons fuel s,
    attempt s + length reasons = N -> success s = false ->
    length reasons <= fuel -> run_fails concept N reasons s ->
    exists s',
      while fuel (retry_cond N) (retry_attempt concept N) s = (Ret tt, s') /\
      attempt s' = N /\ success s' = false /\
      gen_calls s' =
        gen_calls s ++
        (CallVisualization concept <$>
           take (length reasons) (last_error s :: (Some <$> reasons))) /\
      warnings (st_calls s') =
        warnings (st_calls s) ++
        imap (fun k => warning_text (attempt s + k)) reasons /\
      last (last_error s :: (Some <$> reasons)) = Some (last_error s').
Proof.
  induction reasons as [|r rs IH]; intros fuel s Ha Hs Hf Hrun.
  - exists s. rewrite while_done by (apply retry_cond_stop; cbn in Ha; lia).
    cbn in Ha. split; [done|]. split; [lia|]. split; [done|].
    split; [symmetry; apply app_nil_r|].
    split; [symmetry; apply app_nil_r | done].
  - cbn [length] in Ha, Hf. destruct fuel as [|fuel]; [lia|].
    destruct Hrun as [Hr1 Hrun].
    destruct (attempt_fails_consumes concept N s r Hr1)
      as (s1 & Hr & (Ha1 & Hs1 & He1 & Hw1) & Hg).
    rewrite Hr in Hrun. cbn [snd] in Hrun.
    assert (Hc : retry_cond N s = true)
      by (apply retry_cond_true; split; [lia|done]).
    rewrite (while_step _ _ _ s s1 Hc Hr).
    destruct (IH fuel s1) as (s' & Hw & Ha' & Hs' & Hg' & Hw' & Hl');
      [lia | congruence | lia | done |].
    exists s'. split; [done|]. split; [done|]. split; [done|].
    split; [|split].
    + rewrite Hg', Hg, He1, <- app_assoc. reflexivity.
    + rewrite Hw', Hw1, <- app_assoc, imap_cons, Nat.add_0_r. cbn [app].
      do 2 f_equal. apply imap_ext. intros k r' _. unfold compose.
      rewrite Ha1.
      now replace (attempt s + S k) with (S (attempt s) + k) by lia.
    + rewrite fmap_cons, last_cons_cons, <- He1. exact Hl'.
Qed.

(** C2. If every attempt of a run fails before rendering, the model call
    raising or the execution raising, with the reasons [reasons] (the text
    of the exception of each attempt), the retry logic stops without
    success after exactly [N] attempts: [N] calls of the generator and [N]
    warnings, the first call without error context and call [k+1] with the
    reason of attempt [k]; the final report shows the last reason. *)
Theorem failed_run_exhausts fuel concept N s reasons :
  N <= fuel -> length reasons = N ->
  run_fails concept N reasons (session_start s) ->
  exists s' calls shown,
    retry_session fuel concept N s = (Ret tt, s') /\
    success s' = false /\ attempt s' = N /\
    length calls = N /\
    gen_calls s' = gen_calls s ++ calls /\
    (0 < N -> calls !! 0 = Some (CallVisualization concept None)) /\
    (forall k r, S k < N -> reasons !! k = Some r ->
       calls !! S k = Some (CallVisualization concept (Some r))) /\
    warnings (st_calls s') =
      warnings (st_calls s) ++ imap warning_text reasons /\
    last_error s' = last reasons /\
    st_calls s' =
      shown ++
      [StError
         (lit "No se pudo generar la visualización después de varios intentos.");
       StError
         (lit "Último error: " ++
          match last reasons with Some r => r | None => lit "None" end)].
Proof.
  intros Hf Hlen Hrun. destruct s as [w sc gc a su le c f].
  rewrite retry_session_eq. cbv zeta. unfold session_start in Hrun.
  set (s0 := log_st StEmpty _) in *.
  destruct (retry_loop_run_fails concept N reasons fuel s0)
    as (s1 & -> & Ha & Hs & Hg & Hw & Hl); [now rewrite Hlen | done | lia | done |].
  clear Hrun. subst s0. destruct s1 as [w1 sc1 gc1 a1 su1 le1 c1 f1].
  run_py. run_py_in Ha. run_py_in Hs. run_py_in Hg. run_py_in Hw. run_py_in Hl.
  rewrite last_none_some in Hl. injection Hl as Hl.
  rewrite warnings_snoc, app_nil_r in Hw. subst su1.
  eexists _,
    (CallVisualization concept <$> take N (None :: (Some <$> reasons))), sc1.
  split; [reflexivity|].
  split; [done|]. split; [done|].
  split.
  { rewrite length_fmap, length_take. cbn [length].
    rewrite length_fmap. lia. }
  split; [now rewrite <- Hlen|]. split.
  { intros Hn. rewrite list_lookup_fmap, lookup_take_lt by lia. reflexivity. }
  split.
  { intros k r Hk Hr.
    rewrite list_lookup_fmap, lookup_take_lt by lia.
    change ((None :: (Some <$> reasons)) !! S k) with ((Some <$> reasons) !! k).
    now rewrite list_lookup_fmap, Hr. }
  split; [rewrite !warnings_snoc, !app_nil_r; exact Hw|].
  split; [done|].
  rewrite <- Hl, <- app_assoc. now destruct le1.
Qed.

(** C4. When the model call raises, [get_visualization_code] raises an
    exception with the message ["Error generando código: "] followed by the
    error, and the loop body handles it as it handles an execution that
    raises: the attempt returns normally, it is counted, the message is
    recorded and displayed, and the next attempt calls the generator with it
    and sends it to the model in the repair prompt. *)
Theorem generation_error_consumes_attempt concept N s e w1 :
  generate_content (visualization_prompt concept (last_error s)) (world s)
    = (Raised e, w1) ->
  let reason := lit "Error generando código: " ++ exn_str e in
  (get_visualization_code concept (last_error s) s).1
    = Raise (Exn (lit "Exception") reason) /\
  (exists s',
     retry_attempt concept N s = (Ret tt, s') /\
     consumes_attempt reason s s' /\
     exists s'',
       retry_attempt concept N s' = (Ret tt, s'') /\
       gen_calls s'' = gen_calls s' ++ [CallVisualization concept (Some reason)] /\
       visualization_prompt concept (Some reason) = retry_prompt concept reason) /\
  (forall s2 text w2 e2,
     generate_content (visualization_prompt concept (last_error s2)) (world s2)
       = (Returned text, w2) ->
     (execute_and_render (strip_fences text) (set_world w2 s2)).1 = Raise e2 ->
     exists s2',
       retry_attempt concept N s2 = (Ret tt, s2') /\
       consumes_attempt (exn_str e2) s2 s2').
Proof.
  intros Hg reason. split; [|split].
  - rewrite get_visualization_code_eq. cbv zeta. now rewrite Hg.
  - destruct (generation_failure_consumes concept N s e w1 Hg)
      as (s' & Hr & Hc & _).
    exists s'. split; [done|]. split; [done|].
    destruct (retry_attempt_cases concept N s') as (s'' & Hr' & Hg' & _).
    exists s''. split; [done|].
    destruct Hc as (_ & _ & He & _). rewrite He in Hg'. split; [done|].
    reflexivity.
  - intros s2 text w2 e2 Hg2 Hx.
    destruct (execution_failure_consumes concept N s2 text w2 e2 Hg2 Hx)
      as (s2' & ? & ? & _). eauto.
Qed.

(** C7, as amended. If the first answer of the model runs and binds [fig],
    and the renderer accepts the object, the retry logic stops with success
    after that one attempt: one call of the generator, without error
    context, the attempt counter still 0, no warning. *)
Theorem first_attempt_success fuel concept N s text w1 scope w2 f w3 :
  0 < N -> 0 < fuel ->
  generate_content (visualization_prompt concept None) (world s)
    = (Returned text, w1) ->
  py_exec (strip_fences text) w1 = (Returned scope, w2) ->
  scope !! fig_name = Some f ->
  plotly_chart f w2 = (Returned tt, w3) ->
  exists s',
    retry_session fuel concept N s = (Ret tt, s') /\
    success s' = true /\ attempt s' = 0 /\ fig s' = Some f /\
    last_error s' = None /\ code_to_run s' = strip_fences text /\
    gen_calls s' = gen_calls s ++ [CallVisualization concept None] /\
    st_calls s' =
      st_calls s ++
      [StEmpty; StInfo (info_text 0 N); StExpander (expander_label 0);
       StCode (strip_fences text) (lit "python"); StPlotlyChart f;
       StSuccess (lit "¡Visualización generada con éxito!")].
Proof.
  intros HN Hfuel Hg He Hv Hp.
  destruct s as [w sc gc a su le c fg]. cbn [world] in Hg.
  destruct fuel as [|fuel]; [lia|].
  rewrite retry_session_eq. cbv zeta.
  set (s0 := log_st StEmpty _).
  eassert (Hr : retry_attempt concept N s0 = (Ret tt, _)).
  { rewrite retry_attempt_eq. subst s0. run_py.
    rewrite Hg, He, Hv, Hp. reflexivity. }
  rewrite (while_step _ _ _ s0 _ (proj2 (retry_cond_true N s0) (conj HN eq_refl)) Hr).
  rewrite while_done by (apply retry_cond_stop; now left).
  eexists. split; [reflexivity|]. cbn [success].
  repeat split. cbn [st_calls]. now rewrite <- !app_assoc.
Qed.

(** C6, as amended. Every call of the button handler to [get_explanation]
    and to [get_visualization_code] passes the concept typed by the user,
    and that concept is not the empty string. *)
Theorem generators_get_non_empty_concept fuel concept api_key s :
  exists new,
    gen_calls (on_generate fuel concept api_key s).2 = gen_calls s ++ new /\
    Forall (fun c => call_concept c = concept /\ concept <> []) new.
Proof.
  rewrite on_generate_eq. destruct concept as [|c0 concept].
  { exists []. split; [fields s | constructor]. }
  destruct (negb (truthy api_key)).
  { exists []. split; [fields s | constructor]. }
  cbv zeta. cbn [truthy negb].
  set (s1 := log_st (StSpinner _) _).
  rewrite get_explanation_eq. cbv beta iota zeta.
  match goal with |- context [retry_session _ _ _ ?x] => set (s2 := x) end.
  destruct (retry_session_gen_calls fuel (c0 :: concept) 3 s2)
    as (new & Hn & Hall).
  exists (CallExplanation (c0 :: concept) :: new). split.
  - rewrite Hn. subst s2 s1. fields s. now rewrite <- app_assoc.
  - constructor; [done|]. eapply Forall_impl; [exact Hall|]. now intros c ->.
Qed.

End RetryClaims.

(** ** The claims on the scripted outside *)

Section Examples.
Local Open Scope nat_scope.

(** C9 on a model that cannot be reached: the error text is returned. *)
Example get_explanation_offline :
  (@get_explanation offline_host (lit "Entropía") (@fresh offline_host 0)).1 =
  Ret (lit "Error generando explicación: 429 Quota exceeded").
Proof. vm_compute. reflexivity. Qed.

Lemma execute_and_render_looks_up_fig_witness :
  (@execute_and_render (binding_host (lit "fig") (PyInt 1)) (lit "fig = 1")
     (@fresh (binding_host (lit "fig") (PyInt 1)) 0)).1 = Ret (PyInt 1) /\
  (@execute_and_render (binding_host (lit "Fig") (PyFigure 0))
     (lit "Fig = go.Figure()")
     (@fresh (binding_host (lit "Fig") (PyFigure 0)) 0)).1
    = Raise (Exn (lit "ValueError")
                 (lit "El código ejecutado no generó una variable 'fig'.")) /\
  (@execute_and_render (binding_host (lit "figure") (PyFigure 0))
     (lit "figure = go.Figure()")
     (@fresh (binding_host (lit "figure") (PyFigure 0)) 0)).1
    = Raise (Exn (lit "ValueError")
                 (lit "El código ejecutado no generó una variable 'fig'.")).
Proof.
  split; [|split].
  - destruct (execute_and_render_looks_up_fig
                (H := binding_host (lit "fig") (PyInt 1)) (lit "fig = 1")
                (@fresh (binding_host (lit "fig") (PyInt 1)) 0))
      as (_ & _ & Hint & _).
    apply (Hint {[ lit "fig" := PyInt 1 ]}); vm_compute; reflexivity.
  - destruct (execute_and_render_looks_up_fig
                (H := binding_host (lit "Fig") (PyFigure 0))
                (lit "Fig = go.Figure()")
                (@fresh (binding_host (lit "Fig") (PyFigure 0)) 0))
      as (_ & _ & _ & Hname & _).
    apply (Hname (lit "Fig") (PyFigure 0)); [discriminate | reflexivity].
  - destruct (execute_and_render_looks_up_fig
                (H := binding_host (lit "figure") (PyFigure 0))
                (lit "figure = go.Figure()")
                (@fresh (binding_host (lit "figure") (PyFigure 0)) 0))
      as (_ & _ & _ & Hname & _).
    apply (Hname (lit "figure") (PyFigure 0)); [discriminate | reflexivity].
Defined.

(** C1: [execute_and_render] lets the [SyntaxError] of the source through. *)
Lemma execute_and_render_propagates :
  (@execute_and_render broken_host (lit "fig = (") (@fresh broken_host 0)).1
    = Raise syntax_error /\
  ~ (forall (H : Host) code s e, (@execute_and_render H code s).1 <> Raise e).
Proof.
  assert (Hx : (@execute_and_render broken_host (lit "fig = (")
                  (@fresh broken_host 0)).1 = Raise syntax_error)
    by (vm_compute; reflexivity).
  split; [exact Hx|]. intros Hc. exact (Hc _ _ _ _ Hx).
Qed.

Lemma execution_error_reraised_then_caught_witness :
  (@execute_and_render broken_host (lit "fig = (") (@fresh broken_host 1)).1
    = Raise syntax_error /\
  exists s',
    @retry_attempt broken_host (lit "Onda") 3 (@fresh broken_host 0)
      = (Ret tt, s') /\
    consumes_attempt (exn_str syntax_error) (@fresh broken_host 0) s'.
Proof.
  destruct (execution_error_reraised_then_caught
              (H := broken_host) (lit "fig = (") (@fresh broken_host 1)
              syntax_error)
    as [Hx Hloop]; [left; vm_compute; reflexivity|].
  split; [exact Hx|].
  apply (Hloop (lit "Onda") 3 (@fresh broken_host 0) (lit "fig = ("));
    vm_compute; reflexivity.
Defined.

Lemma generated_code_has_no_fence_witness :
  @get_visualization_code figure_host (lit "Onda") None (@fresh figure_host 0)
    = (Ret (lit "fig = go.Figure()"),
       log_gen (CallVisualization (lit "Onda") None) (@fresh figure_host 1)) /\
  (forall l1 l2, lit "fig = go.Figure()" <> l1 ++ fence ++ l2) /\
  trimmed (lit "fig = go.Figure()").
Proof.
  assert (Hg : @get_visualization_code figure_host (lit "Onda") None
                 (@fresh figure_host 0)
               = (Ret (lit "fig = go.Figure()"),
                  log_gen (CallVisualization (lit "Onda") None)
                    (@fresh figure_host 1)))
    by (vm_compute; reflexivity).
  split; [exact Hg|].
  destruct (generated_code_has_no_fence (H := figure_host) _ _ _ _ _ Hg)
    as (_ & Hno & Htr & _).
  split; assumption.
Defined.

Lemma retry_session_terminates_witness :
  3 <= 3 /\
  exists s' calls,
    @retry_session repairing_host 3 (lit "Normal Distribution") 3
      (@fresh repairing_host 0) = (Ret tt, s') /\
    gen_calls s' = gen_calls (@fresh repairing_host 0) ++ calls /\
    length calls <= 3 /\ retry_cond 3 s' = false.
Proof.
  split; [lia|].
  apply (retry_session_terminates (H := repairing_host) 3 _ 3). lia.
Defined.

Lemma generation_error_consumes_attempt_witness :
  exists s',
    @retry_attempt offline_host (lit "Onda") 3 (@fresh offline_host 0)
      = (Ret tt, s') /\
    consumes_attempt (lit "Error generando código: 429 Quota exceeded")
      (@fresh offline_host 0) s'.
Proof.
  destruct (generation_error_consumes_attempt
              (H := offline_host) (lit "Onda") 3 (@fresh offline_host 0)
              quota_error 1)
    as (_ & (s' & Hr & Hc & _) & _); [vm_compute; reflexivity|].
  exists s'. split; [exact Hr | exact Hc].
Defined.

(** C7: the source [fig = 1] runs and binds [fig], and still the three
    attempts fail, each on the renderer's refusal of the integer. *)
Lemma accepted_execution_rejected_by_renderer :
  (@execute_and_render int_host (lit "fig = 1") (@fresh int_host 1)).1
    = Ret (PyInt 1) /\
  (@retry_session int_host 3 (lit "Onda") 3 (@fresh int_host 0)).1 = Ret tt /\
  success (@retry_session int_host 3 (lit "Onda") 3 (@fresh int_host 0)).2
    = false /\
  gen_calls (@retry_session int_host 3 (lit "Onda") 3 (@fresh int_host 0)).2
    = [CallVisualization (lit "Onda") None;
       CallVisualization (lit "Onda") (Some (exn_str plotly_error));
       CallVisualization (lit "Onda") (Some (exn_str plotly_error))] /\
  warnings
    (st_calls (@retry_session int_host 3 (lit "Onda") 3 (@fresh int_host 0)).2)
    = [warning_text 0 (exn_str plotly_error);
       warning_text 1 (exn_str plotly_error);
       warning_text 2 (exn_str plotly_error)].
Proof. repeat split; vm_compute; reflexivity. Qed.

Lemma first_attempt_success_witness :
  exists s',
    @retry_session figure_host 3 (lit "Onda") 3 (@fresh figure_host 0)
      = (Ret tt, s') /\
    success s' = true /\ attempt s' = 0 /\ fig s' = Some (PyFigure 0) /\
    gen_calls s' = [CallVisualization (lit "Onda") None].
Proof.
  destruct (first_attempt_success
              (H := figure_host) 3 (lit "Onda") 3 (@fresh figure_host 0)
              (fenced (lit "fig = go.Figure()")) 1
              {[ fig_name := PyFigure 0 ]} 1 (PyFigure 0) 1)
    as (s' & Hr & Hs & Ha & Hf & _ & _ & Hg & _);
    try lia; try (vm_compute; reflexivity).
  exists s'. repeat split; assumption.
Defined.

(** C6: a concept of three spaces passes the guard and reaches both
    generators. *)
Lemma whitespace_concept_reaches_generators :
  strip (lit "   ") = [] /\
  gen_calls
    (@on_generate figure_host 3 (lit "   ") (lit "key") (@fresh figure_host 0)).2
    = [CallExplanation (lit "   "); CallVisualization (lit "   ") None].
Proof. split; vm_compute; reflexivity. Qed.

(** The scenario of a repair: the first code lacks [fig], the second call
    receives the missing-output reason and its code succeeds. *)
Example repair_after_missing_fig :
  let s' := (@retry_session repairing_host 3 (lit "Normal Distribution") 3
               (@fresh repairing_host 0)).2 in
  success s' = true /\ attempt s' = 1 /\ fig s' = Some (PyFigure 0) /\
  gen_calls s' =
    [CallVisualization (lit "Normal Distribution") None;
     CallVisualization (lit "Normal Distribution")
       (Some (exn_str missing_fig))] /\
  warnings (st_calls s') = [warning_text 0 (exn_str missing_fig)].
Proof. repeat split; vm_compute; reflexivity. Qed.

End Examples.

(** ** Further properties of the retry logic *)

Lemma errors_snoc l c :
  errors (l ++ [c]) = errors l ++ match c with StError b => [b] | _ => [] end.
Proof. unfold errors. rewrite omap_app. now destruct c. Qed.

Section RetryTrace.
Context `{H : Host}.
Local Open Scope nat_scope.
Implicit Types s : state.

(** An attempt displays no error. *)
Lemma retry_attempt_no_error concept N s :
  errors (st_calls (retry_attempt concept N s).2) = errors (st_calls s).
Proof.
  rewrite retry_attempt_eq. destruct s as [w sc gc a su le c f]. run_py.
  destruct (generate_content _ w) as [[text|e] w1];
    [|now rewrite !errors_snoc, !app_nil_r].
  destruct (py_exec _ w1) as [[scope|e] w2];
    [|now rewrite !errors_snoc, !app_nil_r].
  destruct (scope !! fig_name) as [v|];
    [|now rewrite !errors_snoc, !app_nil_r].
  destruct (plotly_chart v w2) as [[[]|e] w3];
    now rewrite !errors_snoc, !app_nil_r.
Qed.

(** What the attempt that sets [success] has displayed and bound. *)
Lemma retry_attempt_success_shape concept N s s' :
  retry_attempt concept N s = (Ret tt, s') ->
  success s = false -> success s' = true ->
  exists text f,
    code_to_run s' = strip_fences text /\ fig s' = Some f /\
    st_calls s' =
      st_calls s ++
      [StInfo (info_text (attempt s) N); StExpander (expander_label (attempt s));
       StCode (strip_fences text) (lit "python"); StPlotlyChart f;
       StSuccess (lit "¡Visualización generada con éxito!")].
Proof.
  intros Hr Hs Hs'.
  assert (Hs2 : s' = (retry_attempt concept N s).2) by now rewrite Hr.
  subst s'. clear Hr. revert Hs'. rewrite retry_attempt_eq.
  destruct s as [w sc gc a su le c f]. run_py_in Hs. subst su. run_py.
  destruct (generate_content _ w) as [[text|e] w1]; [|intros [=]].
  destruct (py_exec _ w1) as [[scope|e] w2]; [|intros [=]].
  destruct (scope !! fig_name) as [v|]; [|intros [=]].
  destruct (plotly_chart v w2) as [[[]|e] w3]; [|intros [=]].
  intros _. exists text, v.
  split; [done|]. split; [done|]. now rewrite <- !app_assoc.
Qed.

(** The loop from a state without success, [n] attempts before the bound:
    the reasons of the failed attempts, in order, are what the generator is
    called with and what the warnings show. *)
Lemma retry_loop_trace concept N :
  forall n fuel s,
    attempt s + n = N -> success s = false -> n <= fuel ->
    exists s' reasons,
      while fuel (retry_cond N) (retry_attempt concept N) s = (Ret tt, s') /\
      attempt s' = attempt s + length reasons /\
      (if success s' then length reasons < n else length reasons = n) /\
      gen_calls s' =
        gen_calls s ++
        (CallVisualization concept <$>
           take (length reasons + (if success s' then 1 else 0))
                (last_error s :: (Some <$> reasons))) /\
      warnings (st_calls s') =
        warnings (st_calls s) ++
        imap (fun k => warning_text (attempt s + k)) reasons /\
      last (last_error s :: (Some <$> reasons)) = Some (last_error s') /\
      errors (st_calls s') = errors (st_calls s) /\
      (success s' = true ->
       exists shown text f,
         st_calls s' =
           shown ++
           [StCode (strip_fences text) (lit "python"); StPlotlyChart f;
            StSuccess (lit "¡Visualización generada con éxito!")] /\
         fig s' = Some f /\ code_to_run s' = strip_fences text).
Proof.
  induction n as [|n IH]; intros fuel s Ha Hs Hf.
  - exists s, []. rewrite while_done by (apply retry_cond_stop; lia).
    rewrite Hs. change (length (@nil (list BinNums.N))) with 0.
    rewrite Nat.add_0_r.
    split; [done|]. split; [done|]. split; [done|].
    split; [symmetry; apply app_nil_r|]. split; [symmetry; apply app_nil_r|].
    split; [done|]. split; [done|]. discriminate.
  - destruct fuel as [|fuel]; [lia|].
    assert (Hc : retry_cond N s = true)
      by (apply retry_cond_true; split; [lia|done]).
    destruct (retry_attempt_cases concept N s) as (s1 & Hr & Hg & Hk).
    rewrite (while_step _ _ _ s s1 Hc Hr).
    pose proof (retry_attempt_no_error concept N s) as Herr.
    rewrite Hr in Herr. cbn [snd] in Herr.
    destruct (success s1) eqn:Hs1.
    + destruct Hk as [(_ & Ha1 & He1 & Hw1 & _) | (r & _ & Hx & _)];
        [|congruence].
      exists s1, []. rewrite while_done by (apply retry_cond_stop; auto).
      rewrite Hs1. change (length (@nil (list BinNums.N))) with 0.
      split; [done|]. split; [lia|]. split; [lia|]. split; [exact Hg|].
      split; [rewrite Hw1; symmetry; apply app_nil_r|].
      split; [now rewrite He1|]. split; [done|]. intros _.
      destruct (retry_attempt_success_shape concept N s s1 Hr Hs Hs1)
        as (text & f & Hcode & Hfig & Hst).
      exists (st_calls s ++ [StInfo (info_text (attempt s) N);
                             StExpander (expander_label (attempt s))]), text, f.
      split; [|done]. rewrite Hst, <- app_assoc. reflexivity.
    + destruct Hk as [(Hx & _) | (r & Ha1 & _ & He1 & Hw1)]; [congruence|].
      destruct (IH fuel s1) as (s' & rs & Hw & Ha' & Hn & Hg' & Hw' & Hl' & He' & Hok);
        [lia | done | lia |].
      exists s', (r :: rs). split; [done|]. cbn [length].
      split; [lia|]. split; [destruct (success s'); lia|]. split; [|split; [|split]].
      * rewrite Hg', Hg, He1, <- app_assoc. reflexivity.
      * rewrite Hw', Hw1, <- app_assoc, imap_cons, Nat.add_0_r. cbn [app].
        do 2 f_equal. apply imap_ext. intros k r' _. unfold compose.
        rewrite Ha1.
        now replace (attempt s + S k) with (S (attempt s) + k) by lia.
      * rewrite fmap_cons, last_cons_cons, <- He1. exact Hl'.
      * split; [congruence | exact Hok].
Qed.

(** The feedback law in every run: the retry logic returns with one warning
    per failed attempt, and the generator has been called once per attempt,
    first without error context and then with the reason of the attempt
    before. It stops either at the first success, before the bound, or
    without success at the bound. *)
Theorem retry_session_feedback fuel concept N s :
  N <= fuel ->
  exists s' reasons,
    retry_session fuel concept N s = (Ret tt, s') /\
    attempt s' = length reasons /\
    (if success s' then length reasons < N else length reasons = N) /\
    gen_calls s' =
      gen_calls s ++
      (CallVisualization concept <$>
         take (length reasons + (if success s' then 1 else 0))
              (None :: (Some <$> reasons))) /\
    warnings (st_calls s') =
      warnings (st_calls s) ++ imap warning_text reasons /\
    last_error s' = last reasons.
Proof.
  intros Hf. destruct s as [w sc gc a su le c f].
  rewrite retry_session_eq. cbv zeta.
  set (s0 := log_st StEmpty _).
  destruct (retry_loop_trace concept N N fuel s0)
    as (s1 & rs & -> & Ha & Hn & Hg & Hw & Hl & _); [done | done | done |].
  subst s0. destruct s1 as [w1 sc1 gc1 a1 su1 le1 c1 f1].
  run_py_in Ha. run_py_in Hn. run_py_in Hg. run_py_in Hw. run_py_in Hl.
  rewrite last_none_some in Hl. injection Hl as Hl.
  rewrite warnings_snoc, app_nil_r in Hw.
  eexists _, rs. split; [reflexivity|].
  destruct su1; run_py; rewrite ?warnings_snoc, ?app_nil_r; auto 10.
Qed.

(** The report of the retry logic: after a success no error is displayed,
    and the last things displayed are the code that ran, the chart of the
    object it bound to [fig], and the success message; without success the
    two error messages close the output, the second with the last reason. *)
Theorem retry_session_report fuel concept N s :
  N <= fuel ->
  exists s',
    retry_session fuel concept N s = (Ret tt, s') /\
    if success s' then
      errors (st_calls s') = errors (st_calls s) /\
      exists shown f,
        fig s' = Some f /\
        st_calls s' =
          shown ++
          [StCode (code_to_run s') (lit "python"); StPlotlyChart f;
           StSuccess (lit "¡Visualización generada con éxito!")]
    else
      attempt s' = N /\
      errors (st_calls s') =
        errors (st_calls s) ++
        [lit "No se pudo generar la visualización después de varios intentos.";
         lit "Último error: " ++ format_opt (last_error s')] /\
      exists shown,
        st_calls s' =
          shown ++
          [StError
             (lit "No se pudo generar la visualización después de varios intentos.");
           StError (lit "Último error: " ++ format_opt (last_error s'))].
Proof.
  intros Hf. destruct s as [w sc gc a su le c f].
  rewrite retry_session_eq. cbv zeta.
  set (s0 := log_st StEmpty _).
  destruct (retry_loop_trace concept N N fuel s0)
    as (s1 & rs & -> & Ha & Hn & _ & _ & _ & He & Hok); [done | done | done |].
  subst s0. destruct s1 as [w1 sc1 gc1 a1 su1 le1 c1 f1].
  run_py_in Ha. run_py_in Hn. run_py_in He. run_py_in Hok.
  rewrite errors_snoc, app_nil_r in He.
  eexists. split; [reflexivity|]. destruct su1; run_py.
  - split; [done|]. destruct (Hok eq_refl) as (shown & text & f1' & -> & -> & ->).
    eauto.
  - split; [lia|]. rewrite !errors_snoc, He, <- app_assoc.
    split; [done|]. exists sc1. now rewrite <- app_assoc.
Qed.

(** When the model call raises, the attempt executes and displays nothing:
    no call to [exec] or to the renderer follows, the code and the figure of
    the attempt before stay as they are, and only the progress line and the
    warning are displayed. *)
Theorem generation_failure_skips_execution concept N s e w1 :
  generate_content (visualization_prompt concept (last_error s)) (world s)
    = (Raised e, w1) ->
  exists s',
    retry_attempt concept N s = (Ret tt, s') /\
    world s' = w1 /\ code_to_run s' = code_to_run s /\ fig s' = fig s /\
    st_calls s' =
      st_calls s ++
      [StInfo (info_text (attempt s) N);
       StWarning
         (warning_text (attempt s)
            (lit "Error generando código: " ++ exn_str e))].
Proof.
  intros Hg. rewrite retry_attempt_eq, Hg. cbv zeta.
  eexists. split; [reflexivity|]. destruct s. run_py.
  now rewrite <- app_assoc.
Qed.

(** A non-empty error text is sent to the model, inside the repair prompt
    and after the base prompt; an empty one is not sent: the generator then
    asks the model exactly what it asks without error context. *)
Theorem error_context_in_prompt concept err s :
  (err <> [] ->
   exists before after,
     visualization_prompt concept (Some err) =
       before ++ base_prompt concept ++ after /\
     occurs err after = true) /\
  (get_visualization_code concept (Some []) s).1
    = (get_visualization_code concept None s).1 /\
  world (get_visualization_code concept (Some []) s).2
    = world (get_visualization_code concept None s).2.
Proof.
  split.
  - intros Herr. destruct err as [|c err]; [done|].
    change (visualization_prompt concept (Some (c :: err)))
      with (retry_prompt concept (c :: err)).
    unfold retry_prompt. eexists _, _. split.
    + reflexivity.
    + apply occurs_spec. eexists _, _. reflexivity.
  - rewrite !get_visualization_code_eq. cbv zeta.
    change (visualization_prompt concept (Some [])) with (base_prompt concept).
    change (visualization_prompt concept None) with (base_prompt concept).
    split; [reflexivity|]. destruct s. reflexivity.
Qed.

End RetryTrace.

(** ** Further properties of the fence stripping *)

Section FenceMore.
Implicit Types p s t x r : list N.

Lemma replace_from_sublist old k s : replace_from old [] k s `sublist_of` s.
Proof.
  revert k. induction s as [|c s IH]; intros k; [done|].
  destruct k as [|k]; cbn [replace_from].
  - destruct (starts_with old (c :: s)).
    + apply sublist_cons, IH.
    + apply sublist_skip, IH.
  - apply sublist_cons, IH.
Qed.

Lemma replace_sublist old s : old <> [] -> replace old [] s `sublist_of` s.
Proof. destruct old; [done|]. intros _. apply replace_from_sublist. Qed.

Lemma strip_sublist s : strip s `sublist_of` s.
Proof.
  unfold strip. destruct (lstrip_suffix s) as [k Hk].
  destruct (rstrip_prefix (lstrip s)) as [k' Hk'].
  rewrite Hk at 2. apply sublist_inserts_l.
  rewrite Hk' at 2. now apply sublist_inserts_r.
Qed.

(** The code returned is what is left of the answer when characters are
    deleted: nothing is added, nothing is reordered, and it is no longer
    than the answer. *)
Theorem strip_fences_sublist s :
  strip_fences s `sublist_of` s /\ (length (strip_fences s) <= length s)%nat.
Proof.
  assert (Hs : strip_fences s `sublist_of` s).
  { unfold strip_fences. etransitivity; [apply strip_sublist|].
    etransitivity; [apply replace_sublist; discriminate|].
    apply replace_sublist. discriminate. }
  split; [exact Hs | now apply sublist_length].
Qed.

(** An answer without three backticks in a row only loses the white space
    at its ends. *)
Theorem strip_fences_without_fence s :
  occurs fence s = false -> strip_fences s = strip s.
Proof.
  intros Hs. unfold strip_fences.
  rewrite (replace_absent fence_python), (replace_absent fence); try done.
  revert Hs. now apply occurs_from_prefix.
Qed.

(** A character that is not in the pattern stops the comparison. *)
Lemma starts_with_app_break p t c r :
  c ∉ p -> starts_with p (t ++ c :: r) = starts_with p t.
Proof.
  revert t. induction p as [|a p IH]; intros t Hc; [done|].
  apply not_elem_of_cons in Hc as [Hca Hcp].
  destruct t as [|b t]; cbn [app starts_with].
  - apply andb_false_iff. left. apply N.eqb_neq. congruence.
  - now rewrite IH.
Qed.

Lemma starts_with_head a p c s :
  c <> a -> starts_with (a :: p) (c :: s) = false.
Proof.
  intros Hc. cbn [starts_with]. apply andb_false_iff. left.
  apply N.eqb_neq. congruence.
Qed.

Lemma replace_from_copy p c s :
  starts_with p (c :: s) = false ->
  replace_from p [] 0 (c :: s) = c :: replace_from p [] 0 s.
Proof. intros Hs. now rewrite replace_from_cons, Hs. Qed.

(** A text without backticks is copied by both replacements. *)
Lemma replace_copy_tag p t r :
  Forall (fun c => c <> backtick) t ->
  replace_from (backtick :: p) [] 0 (t ++ r) =
  t ++ replace_from (backtick :: p) [] 0 r.
Proof.
  induction 1 as [|c t Hc _ IH]; [done|]. cbn [app].
  rewrite replace_from_copy by now apply starts_with_head.
  now rewrite IH.
Qed.

Lemma replace_fence_copy_tag t r :
  Forall (fun c => c <> backtick) t ->
  replace_from fence [] 0 (t ++ r) = t ++ replace_from fence [] 0 r.
Proof. apply (replace_copy_tag [backtick; backtick]). Qed.

(** The first replacement leaves a fence alone when its tag is not
    [python]. *)
Lemma replace_python_other_tag t r :
  Forall (fun c => c <> backtick) t ->
  starts_with (lit "python") t = false ->
  replace_from fence_python [] 0 (fence ++ t ++ 10 :: r) =
  fence ++ t ++ replace_from fence_python [] 0 (10 :: r).
Proof.
  intros Ht Hp.
  assert (Hu : exists h u, t ++ 10 :: r = h :: u /\ h <> backtick).
  { destruct Ht as [|h t Hh _]; [exists 10, r | exists h, (t ++ 10 :: r)];
      (split; [done|]); [discriminate | exact Hh]. }
  destruct Hu as (h & u & Hu & Hh).
  change fence_python with (backtick :: backtick :: backtick :: lit "python").
  change (fence ++ t ++ 10 :: r)
    with (backtick :: backtick :: backtick :: (t ++ 10 :: r)).
  rewrite replace_from_copy.
  2: { cbn [starts_with]. rewrite !N.eqb_refl. cbn [andb].
       rewrite starts_with_app_break; [exact Hp|].
       change (lit "python") with [112; 121; 116; 104; 111; 110].
       rewrite !not_elem_of_cons. repeat (split; [discriminate|]).
       apply not_elem_of_nil. }
  rewrite replace_from_copy.
  2: { rewrite Hu. cbn [starts_with]. rewrite !N.eqb_refl. cbn [andb].
       apply andb_false_iff. left. apply N.eqb_neq. congruence. }
  rewrite replace_from_copy.
  2: { rewrite Hu. cbn [starts_with]. rewrite !N.eqb_refl. cbn [andb].
       apply andb_false_iff. left. apply N.eqb_neq. congruence. }
  now rewrite (replace_copy_tag _ t (10 :: r) Ht).
Qed.

(** A fenced answer whose tag has no backtick and does not begin with
    [python]: only the backticks go. *)
Lemma strip_fences_tagged t x :
  Forall (fun c => c <> backtick) t ->
  starts_with (lit "python") t = false ->
  occurs fence x = false ->
  strip_fences (fence ++ t ++ 10 :: x ++ 10 :: fence)
  = strip (t ++ 10 :: x ++ [10]).
Proof.
  intros Ht Hp Hx. unfold strip_fences.
  change (replace fence_python []) with (replace_from fence_python [] 0).
  change (replace fence []) with (replace_from fence [] 0).
  rewrite (replace_python_other_tag t _ Ht Hp).
  rewrite (replace_fenced fence_python x eq_refl Hx).
  change (replace_from fence_python [] 0 fence) with fence.
  rewrite replace_from_app by discriminate. cbn [app].
  rewrite (replace_fence_copy_tag t _ Ht).
  rewrite (replace_fenced fence x eq_refl Hx).
  reflexivity.
Qed.

(** The answer ["```\nX\n```"], a fence without language tag, gives [X],
    for every text [X] without fence and without white space at its ends. *)
Theorem strip_fences_untagged x :
  occurs fence x = false -> trimmed x ->
  strip_fences (fence ++ 10 :: x ++ 10 :: fence) = x.
Proof.
  intros Hx Ht.
  change (fence ++ 10 :: x ++ 10 :: fence)
    with (fence ++ [] ++ 10 :: x ++ 10 :: fence).
  rewrite (strip_fences_tagged [] x); [|constructor|reflexivity|exact Hx].
  now apply strip_between_newlines.
Qed.

(** A language tag other than [python] is not removed: for an answer
    ["```tag\nX\n```"] the code returned begins with the line of the tag. *)
Theorem strip_fences_keeps_other_tag t x :
  t <> [] -> x <> [] ->
  Forall (fun c => c <> backtick) t ->
  (forall c, head t = Some c -> is_space c = false) ->
  starts_with (lit "python") t = false ->
  occurs fence x = false -> trimmed x ->
  strip_fences (fence ++ t ++ 10 :: x ++ 10 :: fence) = t ++ 10 :: x.
Proof.
  intros Hne Hxne Ht Hh Hp Hx [_ Hl].
  rewrite (strip_fences_tagged t x Ht Hp Hx). unfold strip.
  rewrite lstrip_id.
  2: { destruct t as [|c t]; [done|]. exact Hh. }
  change (t ++ 10 :: x ++ [10]) with (t ++ (10 :: x) ++ [10]).
  rewrite app_assoc. unfold rstrip. rewrite reverse_app.
  change (reverse [10]) with [10].
  change (lstrip ([10] ++ reverse (t ++ 10 :: x)))
    with (lstrip (reverse (t ++ 10 :: x))).
  apply rstrip_id. intros c.
  change (t ++ 10 :: x) with (t ++ [10] ++ x).
  rewrite !last_app. destruct (last x) as [c'|] eqn:Hlx.
  - intros [= <-]. now apply Hl.
  - apply last_None in Hlx. congruence.
Qed.

End FenceMore.

(** ** The claim about the fences the generator removes *)

Section FenceClaim.
Context `{H : Host}.


End FenceClaim.

(** ** Further properties of the button handler *)

Section HandlerMore.
Context `{H : Host}.
Local Open Scope nat_scope.
Implicit Types s : state.

(** An attempt only adds to what is displayed. *)
Lemma retry_attempt_appends concept N s :
  exists l, st_calls (retry_attempt concept N s).2 = st_calls s ++ l.
Proof.
  rewrite retry_attempt_eq. destruct s as [w sc gc a su le c f]. run_py.
  destruct (generate_content _ w) as [[text|e] w1];
    [|eexists; rewrite <- !app_assoc; reflexivity].
  destruct (py_exec _ w1) as [[scope|e] w2];
    [|eexists; rewrite <- !app_assoc; reflexivity].
  destruct (scope !! fig_name) as [v|];
    [|eexists; rewrite <- !app_assoc; reflexivity].
  destruct (plotly_chart v w2) as [[[]|e] w3];
    eexists; rewrite <- !app_assoc; reflexivity.
Qed.

(** The retry logic only adds to what is displayed, first the placeholder
    of the status line. *)
Lemma retry_session_appends fuel concept N s :
  exists l,
    st_calls (retry_session fuel concept N s).2 = st_calls s ++ StEmpty :: l.
Proof.
  rewrite retry_session_eq. cbv zeta. set (s0 := log_st StEmpty _).
  assert (Hinv : exists l,
    st_calls (while fuel (retry_cond N) (retry_attempt concept N) s0).2
      = st_calls s ++ StEmpty :: l).
  { apply (while_invariant
             (fun s' => exists l, st_calls s' = st_calls s ++ StEmpty :: l)).
    - intros s1 (l & Hl).
      destruct (retry_attempt_appends concept N s1) as (l' & ->).
      exists (l ++ l'). rewrite Hl, <- app_assoc. reflexivity.
    - exists []. subst s0. destruct s. reflexivity. }
  destruct (while _ _ _ _) as [[[]|e|] s1]; cbn [snd] in *; try exact Hinv.
  destruct Hinv as (l & Hl). destruct s1 as [w1 sc1 gc1 a1 su1 le1 c1 f1].
  run_py_in Hl. destruct su1; run_py; [eauto|].
  eexists. rewrite Hl, <- !app_assoc. reflexivity.
Qed.

(** The trace of the retry logic (the statement proved for the loop, at the
    start state of a session). *)
Lemma retry_session_trace fuel concept N s :
  N <= fuel ->
  exists s' reasons,
    retry_session fuel concept N s = (Ret tt, s') /\
    (if success s' then length reasons < N else length reasons = N) /\
    gen_calls s' =
      gen_calls s ++
      (CallVisualization concept <$>
         take (length reasons + (if success s' then 1 else 0))
              (None :: (Some <$> reasons))).
Proof.
  intros Hf. destruct s as [w sc gc a su le c f].
  rewrite retry_session_eq. cbv zeta.
  set (s0 := log_st StEmpty _).
  destruct (retry_loop_trace concept N N fuel s0)
    as (s1 & rs & -> & _ & Hn & Hg & _); [done | done | done |].
  subst s0. destruct s1 as [w1 sc1 gc1 a1 su1 le1 c1 f1].
  run_py_in Hn. run_py_in Hg.
  eexists _, rs. split; [reflexivity|]. destruct su1; run_py; auto.
Qed.

(** Without a concept, or without a key, the button does nothing but
    display one error message: no generator and nothing outside is called,
    and the variables of the retry logic keep their values. The missing
    concept is reported first. *)
Theorem on_generate_guards fuel concept api_key s :
  concept = [] \/ api_key = [] ->
  exists message s',
    on_generate fuel concept api_key s = (Ret tt, s') /\
    message =
      (if truthy concept
       then lit "Por favor configura tu API Key en la barra lateral."
       else lit "Por favor escribe un concepto.") /\
    st_calls s' = st_calls s ++ [StError message] /\
    gen_calls s' = gen_calls s /\ world s' = world s /\
    attempt s' = attempt s /\ success s' = success s /\
    last_error s' = last_error s /\ code_to_run s' = code_to_run s /\
    fig s' = fig s.
Proof.
  intros Hg. rewrite on_generate_eq.
  destruct concept as [|c0 concept]; cbn [truthy negb].
  - eexists _, _. split; [reflexivity|]. split; [reflexivity|].
    destruct s. repeat split.
  - destruct Hg as [Hg | ->]; [discriminate|]. cbn [truthy negb].
    eexists _, _. split; [reflexivity|]. split; [reflexivity|].
    destruct s. repeat split.
Qed.

(** With a concept and a key, the button asks for the explanation once and
    first, displays it (the error text when the model call raised), and
    then always tries the visualization: the generator is called for the
    same concept between one and three times, first without error context
    and then with one error text per call. *)
Theorem on_generate_sequence fuel concept api_key s :
  concept <> [] -> api_key <> [] -> 3 <= fuel ->
  exists s' errs shown,
    on_generate fuel concept api_key s = (Ret tt, s') /\
    gen_calls s' =
      gen_calls s ++
      CallExplanation concept ::
      (CallVisualization concept <$> (None :: (Some <$> errs))) /\
    length errs <= 2 /\
    st_calls s' =
      st_calls s ++
      [StTabs [lit "Explicación"; lit "Visualización Interactiva"];
       StSpinner (lit "Generando explicación...");
       StMarkdown
         match (generate_content (explanation_prompt concept) (world s)).1 with
         | Returned text => text
         | Raised e => lit "Error generando explicación: " ++ exn_str e
         end;
       StSpinner (lit "Diseñando y programando visualización...");
       StEmpty] ++ shown.
Proof.
  intros Hc Hk Hf. rewrite on_generate_eq.
  destruct concept as [|c0 concept]; [done|].
  destruct api_key as [|k0 api_key]; [done|]. cbn [truthy negb]. cbv zeta.
  rewrite get_explanation_eq. cbv beta iota zeta.
  match goal with |- context [retry_session _ _ _ ?x] => set (s2 := x) end.
  destruct (retry_session_trace fuel (c0 :: concept) 3 s2 Hf)
    as (s' & rs & Hr & Hn & Hg).
  destruct (retry_session_appends fuel (c0 :: concept) 3 s2) as (l & Hl).
  rewrite Hr in Hl |- *. cbn [snd] in Hl.
  exists s', (take 2 rs), l. split; [reflexivity|].
  split; [|split].
  - assert (Ht : take (length rs + (if success s' then 1 else 0))
                   (None :: (Some <$> rs))
                 = None :: (Some <$> take 2 rs)).
    { destruct (success s').
      - rewrite (take_ge rs) by lia. apply take_ge.
        cbn [length]. rewrite length_fmap. lia.
      - rewrite Hn. cbn [Nat.add take]. now rewrite fmap_take. }
    rewrite Hg, Ht. subst s2. destruct s as [w sc gc a su le c f]. run_py.
    rewrite <- app_assoc. reflexivity.
  - rewrite length_take. lia.
  - rewrite Hl. subst s2. destruct s as [w sc gc a su le c f]. run_py.
    rewrite <- !app_assoc. reflexivity.
Qed.

End HandlerMore.

(** ** Properties of the sidebar *)

Section SidebarFacts.
Local Open Scope nat_scope.
Implicit Types names : list (list N).

Lemma collect_models_from (acc : list (list N)) ms :
  fold_left
    (fun available_models m =>
       if bool_decide (lit "generateContent" ∈ supported_generation_methods m)
       then available_models ++ [model_name m]
       else available_models)
    ms acc
  = acc ++ (model_name <$> filter generates ms).
Proof.
  revert acc. induction ms as [|m ms IH]; intros acc; cbn [fold_left].
  - now rewrite app_nil_r.
  - rewrite IH, filter_cons. unfold generates at 2.
    case_bool_decide; case_decide; try done.
    now rewrite fmap_cons, <- app_assoc.
Qed.

Lemma collect_models_filter ms :
  collect_models ms = model_name <$> filter generates ms.
Proof. apply (collect_models_from []). Qed.

(** The models offered for selection are the names of the models that list
    ['generateContent'], in the order of the listing; the models listed
    before the listing broke off are offered all the same, after the error
    message of the listing. *)
Theorem sidebar_offers_generating_models c api_key :
  api_key <> [] -> configure c api_key = Returned tt ->
  let available := model_name <$> filter generates (yielded (list_models c)) in
  available <> [] ->
  exists after,
    (sidebar c api_key).1 =
      match interrupted (list_models c) with
      | Some e => [SbError (lit "Error listando modelos: " ++ exn_str e)]
      | None => []
      end ++
      SbSelectbox (lit "Selecciona el modelo") available
                  (default_index available) :: after.
Proof.
  intros Hk Hc available Ha. unfold sidebar.
  destruct api_key as [|k0 api_key]; [done|]. cbn [truthy].
  rewrite Hc. cbv zeta. rewrite collect_models_filter.
  fold available. destruct available as [|m0 available]; [done|].
  destruct (generative_model c _);
    eexists; cbn [fst]; rewrite <- !app_assoc; reflexivity.
Qed.

Lemma scan_preferred_range names : forall i d,
  scan_preferred i names d = d \/
  (i <= scan_preferred i names d < i + length names).
Proof.
  induction names as [|m names IH]; intros i d; cbn [scan_preferred length].
  - now left.
  - destruct (is_preferred m); [right; lia|].
    destruct (IH (S i) d) as [-> | Hr]; [now left | right; lia].
Qed.

Lemma scan_preferred_first pre m post : forall i d,
  Forall (fun x => is_preferred x = false) pre -> is_preferred m = true ->
  scan_preferred i (pre ++ m :: post) d = i + length pre.
Proof.
  induction pre as [|x pre IH]; intros i d Hpre Hm; cbn [app scan_preferred length].
  - rewrite Hm. lia.
  - apply Forall_cons in Hpre as [-> Hpre]. rewrite IH by done. lia.
Qed.

Lemma scan_preferred_none names : forall i d,
  Forall (fun x => is_preferred x = false) names ->
  scan_preferred i names d = d.
Proof.
  induction names as [|x names IH]; intros i d Hn; cbn [scan_preferred]; [done|].
  apply Forall_cons in Hn as [-> Hn]. now apply IH.
Qed.

(** The index preselected in the select box is the position of the first
    model whose name contains one of the preferred names, and 0 when there
    is none; it is always a position of the list of models offered. *)
Theorem default_index_first_preferred names :
  (names <> [] -> default_index names < length names) /\
  (forall pre m post,
     names = pre ++ m :: post ->
     Forall (fun x => is_preferred x = false) pre -> is_preferred m = true ->
     default_index names = length pre) /\
  (Forall (fun x => is_preferred x = false) names -> default_index names = 0).
Proof.
  unfold default_index. split; [|split].
  - intros Hn. destruct (scan_preferred_range names 0 0) as [-> | Hr]; [|lia].
    destruct names; [done | cbn; lia].
  - intros pre m post -> Hpre Hm. now rewrite scan_preferred_first.
  - apply scan_preferred_none.
Qed.

(** [model] is bound only after a non-empty key was configured and the
    model object was created, and then to the model selected in the box;
    when the box returns one of its options, this is a listed model that
    lists ['generateContent'], and the success message naming it is the last
    thing the sidebar displays. *)
Theorem sidebar_binds_listed_model c api_key calls name :
  (forall options index, options <> [] -> selectbox c options index ∈ options) ->
  sidebar c api_key = (calls, Some name) ->
  api_key <> [] /\ configure c api_key = Returned tt /\
  generative_model c name = Returned tt /\
  (exists m, m ∈ yielded (list_models c) /\ model_name m = name /\
             lit "generateContent" ∈ supported_generation_methods m) /\
  last calls = Some (SbSuccess (lit "Conectado a " ++ name) (lit "✅")).
Proof.
  intros Hbox. unfold sidebar.
  destruct api_key as [|k0 api_key]; [discriminate|]. cbn [truthy].
  destruct (configure c (k0 :: api_key)) as [[]|e] eqn:Hc; [|discriminate].
  cbv zeta. rewrite collect_models_filter.
  destruct (model_name <$> filter generates (yielded (list_models c)))
    as [|m0 available] eqn:Ha; [discriminate|].
  destruct (generative_model c _) as [[]|e] eqn:Hm; [|discriminate].
  intros [= <- <-]. split; [done|]. split; [done|]. split; [exact Hm|]. split.
  - set (sel := selectbox c (m0 :: available) _) in *.
    assert (Hin : sel ∈ m0 :: available) by now apply Hbox.
    rewrite <- Ha in Hin.
    apply list_elem_of_fmap in Hin as (m & Hname & Hin).
    apply list_elem_of_filter in Hin as [Hg Hin]. exists m. split; [done|].
    split; [done | exact Hg].
  - now rewrite !last_snoc.
Qed.

(** When [model] is not bound, the last thing the sidebar displays is an
    error message, or the warning that asks for the key. *)
Theorem sidebar_unbound_reports c api_key calls :
  sidebar c api_key = (calls, None) ->
  exists body,
    last calls = Some (SbError body) \/
    (api_key = [] /\ calls = [SbWarning body]).
Proof.
  unfold sidebar. destruct api_key as [|k0 api_key]; cbn [truthy].
  { intros [= <-]. eauto. }
  destruct (configure c (k0 :: api_key)) as [[]|e]; [|intros [= <-]; eauto].
  cbv zeta. destruct (collect_models _) as [|m0 available].
  { intros [= <-]. eexists. left. now rewrite last_snoc. }
  destruct (generative_model c _) as [[]|e]; [discriminate|].
  intros [= <-]. eexists. left. now rewrite last_snoc.
Qed.

End SidebarFacts.

(** ** The further properties on the scripted outside *)

Section MoreExamples.
Local Open Scope nat_scope.

Lemma retry_session_feedback_witness :
  3 <= 3 /\
  exists s' reasons,
    @retry_session repairing_host 3 (lit "Normal Distribution") 3
      (@fresh repairing_host 0) = (Ret tt, s') /\
    attempt s' = length reasons /\
    warnings (st_calls s') = imap warning_text reasons /\
    last_error s' = last reasons.
Proof.
  split; [lia|].
  destruct (retry_session_feedback (H := repairing_host) 3
              (lit "Normal Distribution") 3 (@fresh repairing_host 0) (le_n 3))
    as (s' & reasons & Hr & Ha & _ & _ & Hw & Hl).
  exists s', reasons. repeat split; assumption.
Defined.

Lemma retry_session_report_witness :
  3 <= 3 /\
  exists s',
    @retry_session refusing_host 3 (lit "Onda") 3 (@fresh refusing_host 0)
      = (Ret tt, s') /\
    if success s' then
      errors (st_calls s') = errors (st_calls (@fresh refusing_host 0)) /\
      exists shown f,
        fig s' = Some f /\
        st_calls s' =
          shown ++
          [StCode (code_to_run s') (lit "python"); StPlotlyChart f;
           StSuccess (lit "¡Visualización generada con éxito!")]
    else
      attempt s' = 3 /\
      errors (st_calls s') =
        errors (st_calls (@fresh refusing_host 0)) ++
        [lit "No se pudo generar la visualización después de varios intentos.";
         lit "Último error: " ++ format_opt (last_error s')] /\
      exists shown,
        st_calls s' =
          shown ++
          [StError
             (lit "No se pudo generar la visualización después de varios intentos.");
           StError (lit "Último error: " ++ format_opt (last_error s'))].
Proof.
  split; [lia|].
  apply (retry_session_report (H := refusing_host) 3 (lit "Onda") 3). lia.
Defined.

Lemma generation_failure_skips_execution_witness :
  exists s',
    @retry_attempt offline_host (lit "Onda") 3 (@fresh offline_host 0)
      = (Ret tt, s') /\
    world s' = 1 /\ code_to_run s' = [] /\ fig s' = None.
Proof.
  destruct (generation_failure_skips_execution
              (H := offline_host) (lit "Onda") 3 (@fresh offline_host 0)
              quota_error 1)
    as (s' & Hr & Hw & Hc & Hf & _); [vm_compute; reflexivity|].
  exists s'. repeat split; assumption.
Defined.

Lemma error_context_in_prompt_witness :
  lit "boom" <> [] /\
  exists before after,
    visualization_prompt (lit "Onda") (Some (lit "boom")) =
      before ++ base_prompt (lit "Onda") ++ after /\
    occurs (lit "boom") after = true.
Proof.
  split; [discriminate|].
  apply (error_context_in_prompt (H := offline_host) (lit "Onda") (lit "boom")
           (@fresh offline_host 0)).
  discriminate.
Defined.

Lemma strip_fences_without_fence_witness :
  occurs fence (lit "
fig = 1  ") = false /\
  strip_fences (lit "
fig = 1  ") = strip (lit "
fig = 1  ").
Proof.
  split; [vm_compute; reflexivity|].
  apply strip_fences_without_fence. vm_compute. reflexivity.
Defined.

Lemma trimmed_fig_1 : trimmed (lit "fig = 1").
Proof. split; intros c [= <-]; vm_compute; reflexivity. Defined.

Lemma strip_fences_untagged_witness :
  occurs fence (lit "fig = 1") = false /\ trimmed (lit "fig = 1") /\
  strip_fences (fence ++ 10%N :: lit "fig = 1" ++ 10%N :: fence)
    = lit "fig = 1".
Proof.
  split; [vm_compute; reflexivity|]. split; [exact trimmed_fig_1|].
  apply strip_fences_untagged; [vm_compute; reflexivity | exact trimmed_fig_1].
Defined.

Lemma strip_fences_keeps_other_tag_witness :
  strip_fences (fence ++ lit "py" ++ 10%N :: lit "fig = 1" ++ 10%N :: fence)
    = lit "py" ++ 10%N :: lit "fig = 1".
Proof.
  apply strip_fences_keeps_other_tag; try discriminate;
    try (vm_compute; reflexivity); try exact trimmed_fig_1.
  - repeat constructor; discriminate.
  - intros c [= <-]. vm_compute. reflexivity.
Defined.

Lemma on_generate_guards_witness :
  exists message s',
    @on_generate figure_host 3 (lit "Onda") [] (@fresh figure_host 0)
      = (Ret tt, s') /\
    message = lit "Por favor configura tu API Key en la barra lateral." /\
    st_calls s' = [StError message] /\ gen_calls s' = [] /\ world s' = 0.
Proof.
  destruct (on_generate_guards (H := figure_host) 3 (lit "Onda") []
              (@fresh figure_host 0))
    as (message & s' & Hr & Hm & Hs & Hg & Hw & _); [now right|].
  exists message, s'.
  split; [exact Hr|]. split; [rewrite Hm; vm_compute; reflexivity|].
  split; [exact Hs|]. split; [exact Hg | exact Hw].
Defined.

Lemma on_generate_sequence_witness :
  exists s' errs,
    @on_generate offline_host 3 (lit "Onda") (lit "key") (@fresh offline_host 0)
      = (Ret tt, s') /\
    gen_calls s' =
      CallExplanation (lit "Onda") ::
      (CallVisualization (lit "Onda") <$> (None :: (Some <$> errs))) /\
    length errs <= 2.
Proof.
  destruct (on_generate_sequence (H := offline_host) 3 (lit "Onda") (lit "key")
              (@fresh offline_host 0))
    as (s' & errs & shown & Hr & Hg & Hl & _); try discriminate; [lia|].
  exists s', errs. repeat split; assumption.
Defined.

Lemma sidebar_offers_generating_models_witness :
  exists after,
    (sidebar sample_console (lit "key")).1 =
      [SbError (lit "Error listando modelos: 429 Quota exceeded");
       SbSelectbox (lit "Selecciona el modelo")
         [lit "models/gemini-1.0-ultra"; lit "models/gemini-1.5-flash-8b"] 1]
      ++ after.
Proof.
  destruct (sidebar_offers_generating_models sample_console (lit "key"))
    as (after & Hs); [discriminate | reflexivity | discriminate |].
  exists after. rewrite Hs. vm_compute. reflexivity.
Defined.

Lemma default_index_first_preferred_witness :
  default_index
    [lit "models/gemini-1.0-ultra"; lit "models/gemini-1.5-flash-8b";
     lit "models/gemini-pro"] = 1 /\
  default_index [lit "models/gemini-1.0-ultra"] = 0.
Proof.
  split.
  - apply (proj1 (proj2 (default_index_first_preferred _))
             [lit "models/gemini-1.0-ultra"] (lit "models/gemini-1.5-flash-8b")
             [lit "models/gemini-pro"]); [reflexivity | |].
    + repeat constructor.
    + vm_compute. reflexivity.
  - apply (proj2 (proj2 (default_index_first_preferred _))).
    repeat constructor.
Defined.

Lemma untouched_in_options (options : list (list N)) (index : nat) :
  options <> [] -> untouched options index ∈ options.
Proof.
  intros Ho. unfold untouched. apply list_elem_of_In.
  destruct (nth_in_or_default index options (hd [] options)) as [Hin | ->];
    [exact Hin|].
  destruct options; [done | now left].
Defined.

Lemma sidebar_binds_listed_model_witness :
  sidebar sample_console (lit "key") =
    ([SbError (lit "Error listando modelos: 429 Quota exceeded");
      SbSelectbox (lit "Selecciona el modelo")
        [lit "models/gemini-1.0-ultra"; lit "models/gemini-1.5-flash-8b"] 1;
      SbSuccess (lit "Conectado a models/gemini-1.5-flash-8b") (lit "✅")],
     Some (lit "models/gemini-1.5-flash-8b")) /\
  exists m, m ∈ yielded (list_models sample_console) /\
            model_name m = lit "models/gemini-1.5-flash-8b" /\
            lit "generateContent" ∈ supported_generation_methods m.
Proof.
  assert (Hs : sidebar sample_console (lit "key") =
    ([SbError (lit "Error listando modelos: 429 Quota exceeded");
      SbSelectbox (lit "Selecciona el modelo")
        [lit "models/gemini-1.0-ultra"; lit "models/gemini-1.5-flash-8b"] 1;
      SbSuccess (lit "Conectado a models/gemini-1.5-flash-8b") (lit "✅")],
     Some (lit "models/gemini-1.5-flash-8b")))
    by (vm_compute; reflexivity).
  split; [exact Hs|].
  destruct (sidebar_binds_listed_model sample_console (lit "key") _ _
              untouched_in_options Hs) as (_ & _ & _ & Hm & _).
  exact Hm.
Defined.

Lemma sidebar_unbound_reports_witness :
  exists body,
    last (sidebar sample_console []).1 = Some (SbError body) \/
    ([] = @nil N /\ (sidebar sample_console []).1 = [SbWarning body]).
Proof.
  apply (sidebar_unbound_reports sample_console []). reflexivity.
Defined.



(** The three attempts on [forgetful_host] fail on the missing [fig]. *)
Lemma forgetful_run_fails :
  run_fails (H := forgetful_host) (lit "Onda") 3
    [lit "El código ejecutado no generó una variable 'fig'.";
     lit "El código ejecutado no generó una variable 'fig'.";
     lit "El código ejecutado no generó una variable 'fig'."]
    (@session_start forgetful_host (@fresh forgetful_host 0)).
Proof.
  split; [vm_compute; eexists; split; reflexivity|].
  split; [vm_compute; eexists; split; reflexivity|].
  split; [vm_compute; eexists; split; reflexivity|].
  exact I.
Defined.

Lemma failed_run_exhausts_witness :
  3 <= 3 /\
  exists s',
    @retry_session forgetful_host 3 (lit "Onda") 3 (@fresh forgetful_host 0)
      = (Ret tt, s') /\
    success s' = false /\ attempt s' = 3 /\
    warnings (st_calls s') =
      [lit "Intento 1 falló: El código ejecutado no generó una variable 'fig'.";
       lit "Intento 2 falló: El código ejecutado no generó una variable 'fig'.";
       lit "Intento 3 falló: El código ejecutado no generó una variable 'fig'."] /\
    last_error s'
      = Some (lit "El código ejecutado no generó una variable 'fig'.") /\
    last (st_calls s') =
      Some (StError
              (lit "Último error: El código ejecutado no generó una variable 'fig'.")).
Proof.
  split; [lia|].
  destruct (failed_run_exhausts (H := forgetful_host) 3 (lit "Onda") 3
              (@fresh forgetful_host 0)
              [lit "El código ejecutado no generó una variable 'fig'.";
               lit "El código ejecutado no generó una variable 'fig'.";
               lit "El código ejecutado no generó una variable 'fig'."]
              (le_n 3) eq_refl forgetful_run_fails)
    as (s' & calls & shown & Hr & Hs & Ha & _ & _ & _ & _ & Hw & He & Hst).
  exists s'. split; [exact Hr|]. split; [exact Hs|]. split; [exact Ha|].
  split; [rewrite Hw; vm_compute; reflexivity|].
  split; [rewrite He; vm_compute; reflexivity|].
  rewrite Hst, last_app. vm_compute. reflexivity.
Defined.

End MoreExamples.
